(** * MisinfoGuard: the multi-agent coordination pipeline

    A shallow embedding of [src/agents/coordinator.py], the models of
    [src/core/models.py] it builds, and the cache flag computed by
    [api.py], followed by the properties the specification states about
    them.

    Conventions of the embedding.
    - A Python [str] is a [string]; a character stands for a code point
      in the range 0..255, and [lower] and [strip] follow [str.lower] and
      [str.strip] on that range.
    - A Python exception is a value of [exn]; a computation that can raise
      returns a [Res]; [try ... except Exception] is [try_except].
    - The language model, the search tool and the memory bank are
      collaborators: each is a parameter of the agent that calls it.  The
      language model and the memory bank carry a state that is threaded
      through the calls.
    - JSON numbers and confidences are exact rationals ([Q]); rounding to
      binary64, NaN and the infinities are outside the model.  A number
      too large for binary64 is therefore an [int], and [float] raises
      [OverflowError] on it.
    - The logger calls and the [trace_operation] decorator are
      observability hooks and are taken to be transparent; of a log line
      only the evaluation of its f-string is kept, where it can raise.
    - The models are pydantic v2 models (they configure
      [json_schema_extra]): a [str] field does not accept a number. *)

From Stdlib Require Import QArith Qabs Ascii String.
From stdpp Require Import gmap strings list fin_maps.

Local Close Scope Q_scope.
Local Open Scope nat_scope.
Set Warnings "-register-all,-clear-no-such-hyp".

(* ===================================================================== *)
(** ** Exceptions and results *)
(* ===================================================================== *)

(** The exception classes the pipeline can meet.  All of them derive from
    [Exception]; [CollaboratorError] stands for whatever the language model
    client or the search tool raises. *)
Inductive exn : Type :=
  | KeyError (key : string)
  | IndexError
  | TypeError
  | AttributeError
  | ValueError
  | JSONDecodeError
  | ValidationError
  | OverflowError
  | CollaboratorError (msg : string).

Inductive Res (A : Type) : Type :=
  | Ok (a : A)
  | Raise (e : exn).
Arguments Ok {A} a.
Arguments Raise {A} e.

Definition is_ok {A} (r : Res A) : bool :=
  match r with Ok _ => true | Raise _ => false end.

Definition res_bind {A B} (r : Res A) (k : A -> Res B) : Res B :=
  match r with
  | Ok a => k a
  | Raise e => Raise e
  end.

(** [try: body except Exception: handler]. *)
Definition try_except {A} (body : Res A) (handler : exn -> Res A) : Res A :=
  match body with
  | Ok a => Ok a
  | Raise e => handler e
  end.

(** Stateful computations that may raise: the state reached so far is kept
    when an exception propagates. *)
Definition M (S A : Type) : Type := S -> Res A * S.

Definition ret {S A} (a : A) : M S A := fun s => (Ok a, s).
Definition raise {S A} (e : exn) : M S A := fun s => (Raise e, s).
Definition lift {S A} (r : Res A) : M S A := fun s => (r, s).
Definition bind {S A B} (m : M S A) (k : A -> M S B) : M S B :=
  fun s => match m s with
           | (Ok a, s') => k a s'
           | (Raise e, s') => (Raise e, s')
           end.
Definition try_exceptM {S A} (body : M S A) (handler : exn -> M S A) : M S A :=
  fun s => match body s with
           | (Ok a, s') => (Ok a, s')
           | (Raise e, s') => handler e s'
           end.

Declare Scope py_scope.
Delimit Scope py_scope with py.
Notation "x <- m ;; k" := (bind m (fun x => k))
  (at level 100, m at next level, right associativity) : py_scope.

(* ===================================================================== *)
(** ** Python strings *)
(* ===================================================================== *)

Module Str.

Definition code (c : ascii) : N := Ascii.N_of_ascii c.

(** [str.isspace] on one character, code points 0..255. *)
Definition isspace (c : ascii) : bool :=
  let n := code c in
  ((9 <=? n) && (n <=? 13) || (28 <=? n) && (n <=? 32)
   || (n =? 133) || (n =? 160))%N.

(** [str.lower] on one character, code points 0..255: the ASCII capitals
    and the Latin-1 capitals U+00C0..U+00DE without U+00D7. *)
Definition lower_char (c : ascii) : ascii :=
  let n := code c in
  if ((65 <=? n) && (n <=? 90)
      || (192 <=? n) && (n <=? 222) && negb (n =? 215))%N
  then Ascii.ascii_of_N (n + 32) else c.

Fixpoint lower (s : string) : string :=
  match s with
  | EmptyString => EmptyString
  | String c s' => String (lower_char c) (lower s')
  end.

(** [sub in s]. *)
Fixpoint contains (sub s : string) : bool :=
  match s with
  | EmptyString => String.prefix sub EmptyString
  | String _ s' => String.prefix sub s || contains sub s'
  end.

(** [s.split(sep)] for a separator of one character. *)
Fixpoint split (sep : ascii) (s : string) : list string :=
  match s with
  | EmptyString => [EmptyString]
  | String c s' =>
      if Ascii.eqb c sep then EmptyString :: split sep s'
      else match split sep s' with
           | hd :: tl => String c hd :: tl
           | [] => [String c EmptyString]
           end
  end.

(** [s[:n]]. *)
Fixpoint take (n : nat) (s : string) : string :=
  match n, s with
  | S k, String c s' => String c (take k s')
  | _, _ => EmptyString
  end.

Fixpoint lstrip (s : string) : string :=
  match s with
  | EmptyString => EmptyString
  | String c s' => if isspace c then lstrip s' else s
  end.

Fixpoint rstrip (s : string) : string :=
  match s with
  | EmptyString => EmptyString
  | String c s' =>
      match rstrip s' with
      | EmptyString => if isspace c then EmptyString else String c EmptyString
      | r => String c r
      end
  end.

(** [s.strip()]. *)
Definition strip (s : string) : string := rstrip (lstrip s).

(** [s.replace(old, new)] scans from the left: where [old] starts, [new]
    is emitted and the scan resumes behind the occurrence.  [skip] counts
    the characters of an occurrence still to be passed over. *)
Fixpoint replace_from (old new : string) (skip : nat) (s : string) : string :=
  match s with
  | EmptyString => EmptyString
  | String c s' =>
      match skip with
      | S k => replace_from old new k s'
      | O =>
          if String.prefix old s
          then new +:+ replace_from old new (String.length old - 1) s'
          else String c (replace_from old new 0 s')
      end
  end.

(** With an empty [old], Python puts [new] before every character and at
    the end. *)
Fixpoint intersperse (new s : string) : string :=
  match s with
  | EmptyString => new
  | String c s' => new +:+ String c (intersperse new s')
  end.

Definition replace (old new s : string) : string :=
  match old with
  | EmptyString => intersperse new s
  | _ => replace_from old new 0 s
  end.

(** ["\n".join(parts)]. *)
Fixpoint join (sep : string) (parts : list string) : string :=
  match parts with
  | [] => EmptyString
  | [p] => p
  | p :: rest => p +:+ sep +:+ join sep rest
  end.

End Str.

Arguments Str.take : simpl never.
Arguments String.substring : simpl never.

(** Characters that string literals cannot hold. *)
Definition nl : string := String (Ascii.ascii_of_nat 10) EmptyString.
Definition dq : string := String (Ascii.ascii_of_nat 34) EmptyString.

(** ["".join(parts)], used to assemble the f-strings. *)
Definition fstring (parts : list string) : string :=
  fold_right String.append EmptyString parts.

(** Python truthiness of a [str]. *)
Definition nonempty (s : string) : bool :=
  match s with EmptyString => false | _ => true end.

(* ===================================================================== *)
(** ** core/models.py *)
(* ===================================================================== *)

Record Evidence : Type := mkEvidence {
  title : string;
  url : string;
  snippet : string
}.

Inductive Verdict : Type := MISINFORMATION | VERIFIED | UNCERTAIN.

(** A validated [ClaimAnalysis]; [analyzed_at] is a POSIX time. *)
Record ClaimAnalysis : Type := mkClaimAnalysis {
  claim : string;
  verdict : Verdict;
  confidence : Q;
  explanation : string;
  evidence : list Evidence;
  analyzed_at : Z;
  cached : bool
}.

(* ===================================================================== *)
(** ** Python values read from JSON *)
(* ===================================================================== *)

(** What [json.loads] returns: [None], [bool], a number, [str], [list] or
    [dict] (insertion ordered, so an association list; lookup takes the
    first binding of a key). *)
Inductive JSON : Type :=
  | JNull
  | JBool (b : bool)
  | JNum (q : Q)
  | JStr (s : string)
  | JArr (items : list JSON)
  | JObj (fields : list (string * JSON)).

Fixpoint assoc (key : string) (fields : list (string * JSON)) : option JSON :=
  match fields with
  | [] => None
  | (k, v) :: rest => if String.eqb k key then Some v else assoc key rest
  end.

(** [len(v)]: numbers, booleans and [None] have no length. *)
Definition py_len (v : JSON) : Res nat :=
  match v with
  | JStr s => Ok (String.length s)
  | JArr items => Ok (length items)
  | JObj fields => Ok (length fields)
  | JNull | JBool _ | JNum _ => Raise TypeError
  end.

(** [v[key]] with a string key: only a [dict] can be subscripted so. *)
Definition py_getitem (v : JSON) (key : string) : Res JSON :=
  match v with
  | JObj fields =>
      match assoc key fields with
      | Some x => Ok x
      | None => Raise (KeyError key)
      end
  | _ => Raise TypeError
  end.

(** [v.get(key, default)]: only a [dict] has the method. *)
Definition py_get (v : JSON) (key : string) (default : JSON) : Res JSON :=
  match v with
  | JObj fields =>
      match assoc key fields with
      | Some x => Ok x
      | None => Ok default
      end
  | _ => Raise AttributeError
  end.

(** [isinstance(v, list)]. *)
Definition is_list (v : JSON) : bool :=
  match v with JArr _ => true | _ => false end.

(** [float(n)] raises [OverflowError] for an [int] that rounds beyond the
    largest binary64 number, [2^1024 - 2^971]: the ints from
    [2^1024 - 2^970] on, in absolute value.  Every [float] is smaller. *)
Definition float_overflows (q : Q) : bool :=
  Qle_bool (inject_Z (2 ^ 1024 - 2 ^ 970)) (Qabs q).
Arguments float_overflows : simpl never.

(** [float(v)]; [float_of_str] is Python's parser of float literals. *)
Definition py_float (float_of_str : string -> option Q) (v : JSON) : Res Q :=
  match v with
  | JNum q => if float_overflows q then Raise OverflowError else Ok q
  | JBool b => Ok (if b then 1%Q else 0%Q)
  | JStr s =>
      match float_of_str s with
      | Some q => Ok q
      | None => Raise ValueError
      end
  | JNull | JArr _ | JObj _ => Raise TypeError
  end.

(** The validation pydantic runs when [ClaimAnalysis(...)] is called:
    [claim] and [explanation] must be [str], [confidence] must satisfy
    [ge=0.0] and [le=1.0].  The other arguments the coordinator passes are
    of the declared types already. *)
Definition ClaimAnalysis_new (claim_v : JSON) (v : Verdict) (conf : Q)
    (explanation_v : JSON) (ev : list Evidence) (at_ : Z) (c : bool)
  : Res ClaimAnalysis :=
  match claim_v, explanation_v with
  | JStr cl, JStr ex =>
      if Qle_bool 0 conf && Qle_bool conf 1
      then Ok (mkClaimAnalysis cl v conf ex ev at_ c)
      else Raise ValidationError
  | _, _ => Raise ValidationError
  end.

(* ===================================================================== *)
(** ** asyncio.gather *)
(* ===================================================================== *)

(** The awaited tasks have the outcomes [outcomes], listed in the order the
    tasks were passed; [order] lists the task indices in the order the
    tasks complete.  The first task to complete with an exception makes
    [gather] raise it; otherwise the results come back in the order the
    tasks were passed. *)
Fixpoint first_raised {A} (order : list nat) (outcomes : list (Res A))
  : option exn :=
  match order with
  | [] => None
  | i :: rest =>
      match outcomes !! i with
      | Some (Raise e) => Some e
      | _ => first_raised rest outcomes
      end
  end.

Fixpoint collect {A} (outcomes : list (Res A)) : Res (list A) :=
  match outcomes with
  | [] => Ok []
  | r :: rest =>
      res_bind r (fun a => res_bind (collect rest) (fun l => Ok (a :: l)))
  end.

Definition asyncio_gather {A} (order : list nat) (outcomes : list (Res A))
  : Res (list A) :=
  match first_raised order outcomes with
  | Some e => Raise e
  | None => collect outcomes
  end.

(* ===================================================================== *)
(** ** EvidenceGathererAgent *)
(* ===================================================================== *)

(** One result of the search tool: a [dict] whose keys ['title'], ['href']
    and ['body'], when present, hold strings. *)
Record SearchResult : Type := mkSearchResult {
  r_title : option string;
  r_href : option string;
  r_body : option string
}.

Section EvidenceGatherer.

(** [self.search_tool.search(query, max_results=n)]. *)
Variable search : string -> nat -> Res (list SearchResult).

Definition queries (topic : string) : list string :=
  [ topic;
    fstring [topic; " fact check"];
    fstring [topic; " misinformation analysis"] ].

(** The body of the inner loop, on the pair [(all_evidence, seen_urls)]. *)
Definition add_result (st : list Evidence * gset string) (result : SearchResult)
  : list Evidence * gset string :=
  let '(all_evidence, seen_urls) := st in
  match r_href result with
  | Some u =>
      if nonempty u && negb (bool_decide (u ∈ seen_urls))
      then (all_evidence ++
              [ mkEvidence (default "Unknown" (r_title result)) u
                           (Str.take 200 (default "" (r_body result))) ],
            seen_urls ∪ {[ u ]})
      else st
  | None => st
  end.

Definition merge (results_list : list (list SearchResult))
  : list Evidence * gset string :=
  fold_left (fun st results => fold_left add_result results st)
            results_list ([], ∅).

Definition gather (order : list nat) (topic : string) : Res (list Evidence) :=
  let tasks := map (fun query => search query 3) (queries topic) in
  res_bind (asyncio_gather order tasks) (fun results_list =>
    let all_evidence := fst (merge results_list) in
    Ok (take 8 all_evidence)).

End EvidenceGatherer.

(* ===================================================================== *)
(** ** CredibilityAssessorAgent *)
(* ===================================================================== *)

Definition trusted : list string :=
  ["edu"; "gov"; "reuters"; "apnews"; "bbc"; "factcheck"].
Definition untrusted : list string := ["blog"; "wordpress"; "medium"].

(** [ev.url.split('/')[2] if '/' in ev.url else ev.url]. *)
Definition domain_of (u : string) : Res string :=
  if Str.contains "/" u
  then match Str.split "/" u !! 2 with
       | Some d => Ok d
       | None => Raise IndexError
       end
  else Ok u.

(** [any(t in domain.lower() for t in names)]. *)
Definition any_in (names : list string) (domain : string) : bool :=
  existsb (fun t => Str.contains t (Str.lower domain)) names.

Definition credibility_of (domain : string) : string :=
  if any_in trusted domain then "high"
  else if any_in untrusted domain then "low"
  else "medium".

Fixpoint assess_loop (evidence : list Evidence) (credibility_map : gmap string string)
  : Res (gmap string string) :=
  match evidence with
  | [] => Ok credibility_map
  | ev :: rest =>
      res_bind (domain_of (url ev)) (fun domain =>
        assess_loop rest (<[ url ev := credibility_of domain ]> credibility_map))
  end.

Definition assess (evidence : list Evidence) : Res (gmap string string) :=
  assess_loop evidence ∅.

(* ===================================================================== *)
(** ** The agents that call the language model *)
(* ===================================================================== *)

Local Open Scope py_scope.

Definition quoted (s : string) : string := fstring [dq; s; dq].

Section Agents.

(** The world outside the process: the language model behind
    [self.model] and the clock. *)
Variable W : Type.

(** [self.model.generate_content(prompt)] followed by [response.text]. *)
Variable generate_content : string -> M W string.

(** [datetime.now()]. *)
Variable datetime_now : W -> Z * W.

(** [json.loads]; [None] stands for [JSONDecodeError]. *)
Variable json_loads : string -> option JSON.

(** The parser behind [float(s)] for a string [s]. *)
Variable float_of_str : string -> option Q.

(** How an f-string renders a value that is not a [str]. *)
Variable repr : JSON -> string.

Definition py_format (v : JSON) : string :=
  match v with
  | JStr s => s
  | _ => repr v
  end.

(** *** FactCheckerAgent *)

Definition check_prompt (topic evidence_summary : string) : string :=
  Str.join nl
    [ "Analyze this topic for misinformation:";
      "";
      fstring ["Topic: "; quoted topic];
      "";
      "Evidence:";
      evidence_summary;
      "";
      "Identify 1-3 specific claims that are MISINFORMATION only.";
      "Return JSON array:";
      "[";
      "  {";
      fstring ["    "; quoted "claim"; ": "; quoted "exact claim text"; ","];
      fstring ["    "; quoted "verdict"; ": "; quoted "MISINFORMATION"; ","];
      fstring ["    "; quoted "confidence"; ": 0.85,"];
      fstring ["    "; quoted "reasoning"; ": "; quoted "why this is false"];
      "  }";
      "]";
      "";
      "Return [] if no misinformation found." ].

(** The two [replace] calls and the [strip] calls applied to
    [response.text]. *)
Definition clean (text : string) : string :=
  Str.strip (Str.replace "```" "" (Str.replace "```json" "" (Str.strip text))).

(** The statements under [try:].  The log line formats [len(claims)]
    before the value is returned. *)
Definition check_body (prompt : string) : M W (list JSON) :=
  text <- generate_content prompt ;;
  let result_text := clean text in
  claims <- lift (match json_loads result_text with
                  | Some v => Ok v
                  | None => Raise JSONDecodeError
                  end) ;;
  _ <- lift (py_len claims) ;;
  ret (match claims with
       | JArr items => items
       | _ => [claims]
       end).

Definition check (topic : string) (evidence : list Evidence) : M W (list JSON) :=
  let evidence_summary :=
    Str.join nl (map (fun e => fstring ["- "; title e; ": "; snippet e]) evidence) in
  let prompt := check_prompt topic evidence_summary in
  try_exceptM (check_body prompt) (fun _ => ret []).

(** *** ExplainerAgent *)

Definition explain_prompt (claim_v reasoning : JSON) (evidence : list Evidence)
  : string :=
  let evidence_text :=
    Str.join nl (map (fun e => fstring ["- ["; title e; "]("; url e; ")"])
                     (take 3 evidence)) in
  Str.join nl
    [ "Create a clear, concise explanation (2-3 paragraphs):";
      "";
      fstring ["Claim: "; quoted (py_format claim_v)];
      fstring ["Why it's false: "; py_format reasoning];
      "";
      "Sources:";
      evidence_text;
      "";
      "Write in friendly, authoritative tone with Markdown formatting." ].

(** Returns the text of the response, or [reasoning] as it was passed. *)
Definition explain (claim_v reasoning : JSON) (evidence : list Evidence)
  : M W JSON :=
  try_exceptM
    (text <- generate_content (explain_prompt claim_v reasoning evidence) ;;
     ret (JStr text))
    (fun _ => ret reasoning).

(** *** CoordinatorAgent *)

(** [credibility_map.get(e.url) == "high"]. *)
Definition is_high (credibility_map : gmap string string) (e : Evidence) : bool :=
  match credibility_map !! url e with
  | Some c => String.eqb c "high"
  | None => false
  end.

(** [(high_cred_evidence or evidence)[:3]]. *)
Definition select_evidence (credibility_map : gmap string string)
    (evidence : list Evidence) : list Evidence :=
  let high_cred_evidence := List.filter (is_high credibility_map) evidence in
  take 3 (match high_cred_evidence with
          | [] => evidence
          | _ => high_cred_evidence
          end).

(** The body of the loop over the facts. *)
Definition analyze_fact (credibility_map : gmap string string)
    (evidence : list Evidence) (fact : JSON) : M W ClaimAnalysis :=
  let selected_evidence := select_evidence credibility_map evidence in
  claim_arg <- lift (py_getitem fact "claim") ;;
  reasoning <- lift (py_get fact "reasoning" (JStr "")) ;;
  explanation_v <- explain claim_arg reasoning selected_evidence ;;
  claim_v <- lift (py_getitem fact "claim") ;;
  conf_v <- lift (py_get fact "confidence" (JNum 0.8%Q)) ;;
  conf <- lift (py_float float_of_str conf_v) ;;
  now <- (fun w => let '(t, w') := datetime_now w in (Ok t, w')) ;;
  lift (ClaimAnalysis_new claim_v MISINFORMATION conf explanation_v
                          selected_evidence now false).

(** [for fact in facts: ... claims.append(claim)]. *)
Fixpoint analyze_claims (credibility_map : gmap string string)
    (evidence : list Evidence) (facts : list JSON)
    (claims : list ClaimAnalysis) : M W (list ClaimAnalysis) :=
  match facts with
  | [] => ret claims
  | fact :: rest =>
      c <- analyze_fact credibility_map evidence fact ;;
      analyze_claims credibility_map evidence rest (claims ++ [c])
  end.

(** The memory bank behind [self.memory_bank] and the search tool. *)
Variable MB : Type.
Variable memory_get : string -> MB -> option (list ClaimAnalysis) * MB.
Variable memory_store : string -> list ClaimAnalysis -> MB -> MB.
Variable search : string -> nat -> Res (list SearchResult).

(** [if cached_result:] holds for a list that is not empty. *)
Definition truthy (cached_result : option (list ClaimAnalysis)) : bool :=
  match cached_result with
  | Some (_ :: _) => true
  | _ => false
  end.

(** Steps 3 to 5, entered with evidence that is not empty.
    [asyncio.gather] starts both tasks.  The credibility task holds no
    suspension point: an exception of it is what [gather] raises, and the
    call that [check] makes to the language model has been made all the
    same, so the world is the one [check] leaves.  [check] itself does
    not raise. *)
Definition analyze_evidence (topic : string) (evidence : list Evidence)
  : M (W * MB) (list ClaimAnalysis) :=
  fun '(w, mb) =>
    match assess evidence with
    | Raise e => (Raise e, ((check topic evidence w).2, mb))
    | Ok credibility_map =>
        match check topic evidence w with
        | (Raise e, w1) => (Raise e, (w1, mb))
        | (Ok fact_check_results, w1) =>
            match analyze_claims credibility_map evidence
                                 (take 3 fact_check_results) [] w1 with
            | (Raise e, w2) => (Raise e, (w2, mb))
            | (Ok claims, w2) =>
                match claims with
                | [] => (Ok claims, (w2, mb))
                | _ => (Ok claims, (w2, memory_store topic claims mb))
                end
            end
        end
    end.

(** [order] is the order in which the three searches complete. *)
Definition analyze (order : list nat) (topic : string)
  : M (W * MB) (list ClaimAnalysis) :=
  fun '(w, mb) =>
    let '(cached_result, mb1) := memory_get topic mb in
    if truthy cached_result
    then (Ok (default [] cached_result), (w, mb1))
    else
      match gather search order topic with
      | Raise e => (Raise e, (w, mb1))
      | Ok [] => (Ok [], (w, mb1))
      | Ok evidence => analyze_evidence topic evidence (w, mb1)
      end.

End Agents.

(* ===================================================================== *)
(** ** api.py *)
(* ===================================================================== *)

(** [any(claim.cached for claim in claims) if claims else False]. *)
Definition response_cached (claims : list ClaimAnalysis) : bool :=
  match claims with
  | [] => false
  | _ => existsb cached claims
  end.

(* ===================================================================== *)
(** ** memory/memory_bank.py *)
(* ===================================================================== *)

Module MemoryBank.

(** Modelled from the spec: the class [MemoryBank] of
    [src/memory/memory_bank.py] is imported by the coordinator and is not
    among the sources.  The spec describes a topic-keyed store of claim
    sequences with hit and miss counters. *)
Record t : Type := mk {
  entries : gmap string (list ClaimAnalysis);
  hits : nat;
  misses : nat
}.

(** Modelled from the spec: the memory bank before any request. *)
Definition empty : t := mk ∅ 0 0.

(** Modelled from the spec: [get(topic)] returns the sequence stored
    under exactly this topic string, or "absent"; the lookup is counted
    as a hit or as a miss. *)
Definition get (topic : string) (mb : t) : option (list ClaimAnalysis) * t :=
  match entries mb !! topic with
  | Some claims => (Some claims, mk (entries mb) (S (hits mb)) (misses mb))
  | None => (None, mk (entries mb) (hits mb) (S (misses mb)))
  end.

(** Modelled from the spec: [store(topic, claims)] makes [claims] the
    entry of [topic]; the last write wins. *)
Definition store (topic : string) (claims : list ClaimAnalysis) (mb : t) : t :=
  mk (<[ topic := claims ]> (entries mb)) (hits mb) (misses mb).

(** Modelled from the spec: [stats()] gives the entry count and the hit
    and miss counters. *)
Definition stats (mb : t) : nat * nat * nat :=
  (size (entries mb), hits mb, misses mb).

End MemoryBank.

(* ===================================================================== *)
(** ** What the specification says, in its own words *)
(* ===================================================================== *)

(** A search result contributes evidence when its ['href'] is present and
    not empty. *)
Definition has_url (r : SearchResult) : bool :=
  match r_href r with
  | Some u => nonempty u
  | None => false
  end.

Definition same_url (r r' : SearchResult) : bool :=
  bool_decide (r_href r = r_href r').

(** "Deduplicates by URL (first occurrence wins)": a result is kept and
    the later results with its URL are dropped. *)
Fixpoint first_by_url (rs : list SearchResult) : list SearchResult :=
  match rs with
  | [] => []
  | r :: rest => r :: List.filter (fun r' => negb (same_url r r')) (first_by_url rest)
  end.

(** "Truncates each snippet to 200 characters": the snippet is the part of
    the body that starts at its first character and is 200 characters long,
    or the whole body when that is shorter. *)
Definition to_evidence (r : SearchResult) : Evidence :=
  mkEvidence (default "Unknown" (r_title r)) (default "" (r_href r))
             (String.substring 0 200 (default "" (r_body r))).

(** "Truncates the merged sequence to the first 8 entries after
    deduplication." *)
Definition merged_evidence (rs : list SearchResult) : list Evidence :=
  take 8 (map to_evidence (first_by_url (List.filter has_url rs))).

(** "Clamped to [0,1]". *)
Definition clamp01 (q : Q) : Q :=
  if Qle_bool q 0 then 0%Q else if Qle_bool 1 q then 1%Q else q.

(** "Prefer all evidence items scored high; if none are high, fall back to
    the full evidence sequence; take the first 3." *)
Definition preferred_evidence (credibility_map : gmap string string)
    (evidence : list Evidence) : list Evidence :=
  if existsb (is_high credibility_map) evidence
  then take 3 (List.filter (is_high credibility_map) evidence)
  else take 3 evidence.

(* ===================================================================== *)
(** ** Vocabulary of the statements *)
(* ===================================================================== *)

(** A result is added by the loop when its URL is present, not empty and
    not yet in [seen_urls]. *)
Definition fresh (seen : gset string) (r : SearchResult) : bool :=
  match r_href r with
  | Some u => nonempty u && negb (bool_decide (u ∈ seen))
  | None => false
  end.

(** The code fences a response may be wrapped in. *)
Definition fence_json : string := "```json".
Definition fence : string := "```".

(** The prompt [check] sends for a topic and its evidence. *)
Definition fact_check_prompt (topic : string) (evidence : list Evidence) : string :=
  check_prompt topic
    (Str.join nl (map (fun e => fstring ["- "; title e; ": "; snippet e]) evidence)).

(** The confidence the verifier gave for a fact, 0.8 when it gave none. *)
Definition verifier_confidence (float_of_str : string -> option Q) (fact : JSON)
  : Res Q :=
  res_bind (py_get fact "confidence" (JNum 0.8%Q)) (py_float float_of_str).

Definition in_unit_interval (q : Q) : bool := Qle_bool 0 q && Qle_bool q 1.

(** A fact of the shape the prompt asks for: an object with a string
    ["claim"], a ["reasoning"] that is a string or absent, and a
    ["confidence"] that is absent or converts to a number of [0,1]. *)
Definition well_formed_fact (float_of_str : string -> option Q) (fact : JSON)
  : bool :=
  match py_getitem fact "claim", py_get fact "reasoning" (JStr ""),
        verifier_confidence float_of_str fact with
  | Ok (JStr _), Ok (JStr _), Ok q => in_unit_interval q
  | _, _, _ => false
  end.

(** What the claim built for a fact takes from the fact and the evidence. *)
Definition claim_of_fact (float_of_str : string -> option Q)
    (credibility_map : gmap string string) (ev : list Evidence)
    (fact : JSON) (c : ClaimAnalysis) : Prop :=
  py_getitem fact "claim" = Ok (JStr (claim c))
  /\ verdict c = MISINFORMATION
  /\ verifier_confidence float_of_str fact = Ok (confidence c)
  /\ evidence c = preferred_evidence credibility_map ev
  /\ cached c = false.

(** "The confidence field is always clamped to [0,1]": the run returns one
    claim per fact, whose confidence is the clamped confidence of the
    verifier. *)
Definition confidence_clamped (float_of_str : string -> option Q)
    (facts : list JSON) (run : Res (list ClaimAnalysis)) : Prop :=
  exists claims,
    run = Ok claims
    /\ Forall2 (fun fact c =>
                  exists q, verifier_confidence float_of_str fact = Ok q
                            /\ confidence c = clamp01 q)
               facts claims.

Section Reachability.

Variable W : Type.
Variable generate_content : string -> M W string.
Variable datetime_now : W -> Z * W.
Variable json_loads : string -> option JSON.
Variable float_of_str : string -> option Q.
Variable repr : JSON -> string.

(** The memory banks that calls of [analyze] build from the empty one. *)
Inductive reachable : MemoryBank.t -> Prop :=
  | reachable_empty : reachable MemoryBank.empty
  | reachable_analyze search order topic w mb :
      reachable mb ->
      reachable (analyze W generate_content datetime_now json_loads float_of_str repr
                 MemoryBank.t MemoryBank.get MemoryBank.store
                 search order topic (w, mb)).2.2.

(** Every stored sequence is not empty and holds claims that are not
    flagged as cached. *)
Definition stored_uncached (mb : MemoryBank.t) : Prop :=
  forall topic claims,
    MemoryBank.entries mb !! topic = Some claims ->
    claims <> [] /\ Forall (fun c => cached c = false) claims.

End Reachability.

(* ===================================================================== *)
(** ** A scripted world, to run the pipeline on concrete inputs *)
(* ===================================================================== *)

Module Scripted.

(** The language model answers the successive calls with the outcomes
    listed in [responses]; the clock ticks at every reading. *)
Record World : Type := mkWorld {
  responses : list (Res string);
  clock : Z
}.

Definition generate_content (prompt : string) : M World string :=
  fun w =>
    match responses w with
    | [] => (Raise (CollaboratorError "no response"), w)
    | r :: rest => (r, mkWorld rest (clock w))
    end.

Definition datetime_now (w : World) : Z * World :=
  (clock w, mkWorld (responses w) (clock w + 1)%Z).

(** [json.loads] on the texts listed in [table]; every other text is
    taken as not parseable. *)
Fixpoint json_loads (table : list (string * JSON)) (s : string) : option JSON :=
  match table with
  | [] => None
  | (text, v) :: rest => if String.eqb text s then Some v else json_loads rest s
  end.

Definition float_of_str (s : string) : option Q := None.
Definition repr (v : JSON) : string := "<value>".

(** The search tool answers each query by the list bound to it. *)
Fixpoint search (table : list (string * list SearchResult))
    (query : string) (max_results : nat) : Res (list SearchResult) :=
  match table with
  | [] => Ok []
  | (q, rs) :: rest =>
      if String.eqb q query then Ok (take max_results rs)
      else search rest query max_results
  end.

End Scripted.

(* ===================================================================== *)
(** ** Sample requests *)
(* ===================================================================== *)

Module Sample.

Definition topic : string := "moon landing".

Definition bbc : SearchResult :=
  mkSearchResult (Some "Apollo 11 at fifty")
                 (Some "https://www.bbc.com/news/x")
                 (Some "How the landing was tracked around the world").
Definition bbc_again : SearchResult :=
  mkSearchResult (Some "Apollo 11, once more")
                 (Some "https://www.bbc.com/news/x")
                 (Some "The same page under another title").
Definition press : SearchResult :=
  mkSearchResult (Some "What they hide")
                 (Some "https://my.wordpress.com/post")
                 (Some "A personal page").
Definition org : SearchResult :=
  mkSearchResult None (Some "https://example.org/x") None.
Definition no_link : SearchResult :=
  mkSearchResult (Some "No link") None (Some "A result without href").

Definition search : string -> nat -> Res (list SearchResult) :=
  Scripted.search
    [ ("moon landing", [bbc; press]);
      ("moon landing fact check", [bbc_again; org]);
      ("moon landing misinformation analysis", [no_link; press]) ].

(** A search tool that finds nothing. *)
Definition search_nothing : string -> nat -> Res (list SearchResult) :=
  Scripted.search [].

(** The evidence [gather] returns for [topic] with [search]. *)
Definition evidence_found : list Evidence :=
  [ mkEvidence "Apollo 11 at fifty" "https://www.bbc.com/news/x"
               "How the landing was tracked around the world";
    mkEvidence "What they hide" "https://my.wordpress.com/post"
               "A personal page";
    mkEvidence "Unknown" "https://example.org/x" "" ].

(** The credibility of [evidence_found]. *)
Definition credibility : gmap string string :=
  <[ "https://example.org/x" := "medium" ]>
    (<[ "https://my.wordpress.com/post" := "low" ]>
       (<[ "https://www.bbc.com/news/x" := "high" ]> ∅)).

(** Facts, as values and as the JSON texts that denote them. *)
Definition fact_staged : JSON :=
  JObj [ ("claim", JStr "The landing was staged");
         ("verdict", JStr "MISINFORMATION");
         ("confidence", JNum 0.9%Q);
         ("reasoning", JStr "Observatories tracked the flight") ].
Definition fact_flag : JSON :=
  JObj [ ("claim", JStr "The flag waved in the wind");
         ("reasoning", JStr "The flag moved only when touched") ].
Definition fact_no_claim : JSON :=
  JObj [ ("verdict", JStr "MISINFORMATION") ].
Definition fact_too_sure : JSON :=
  JObj [ ("claim", JStr "The landing was staged");
         ("confidence", JNum 1.5%Q) ].

Definition member (key value : string) : string :=
  fstring [quoted key; ": "; value].

Definition text_staged : string :=
  fstring [ "{"; member "claim" (quoted "The landing was staged"); ", ";
            member "verdict" (quoted "MISINFORMATION"); ", ";
            member "confidence" "0.9"; ", ";
            member "reasoning" (quoted "Observatories tracked the flight");
            "}" ].
Definition text_flag : string :=
  fstring [ "{"; member "claim" (quoted "The flag waved in the wind"); ", ";
            member "reasoning" (quoted "The flag moved only when touched");
            "}" ].
Definition text_two_facts : string :=
  fstring ["["; text_staged; ", "; text_flag; "]"].
Definition text_four_facts : string :=
  fstring [ "["; text_staged; ", "; text_flag; ", ";
            text_staged; ", "; text_flag; "]" ].
Definition text_no_claim : string :=
  fstring ["[{"; member "verdict" (quoted "MISINFORMATION"); "}]"].
Definition text_too_sure : string :=
  fstring [ "[{"; member "claim" (quoted "The landing was staged"); ", ";
            member "confidence" "1.5"; "}]" ].
Definition text_number : string := "5".

Definition json_loads : string -> option JSON :=
  Scripted.json_loads
    [ (text_two_facts, JArr [fact_staged; fact_flag]);
      (text_four_facts, JArr [fact_staged; fact_flag; fact_staged; fact_flag]);
      (text_staged, fact_staged);
      (text_no_claim, JArr [fact_no_claim]);
      (text_too_sure, JArr [fact_too_sure]);
      (text_number, JNum 5%Q) ].

(** A response of the language model: the text between code fences. *)
Definition fenced (text : string) : string :=
  fstring [fence_json; nl; text; nl; fence].

Definition world (responses : list (Res string)) : Scripted.World :=
  Scripted.mkWorld responses 1700000000%Z.

Definition check (w : Scripted.World) :=
  check Scripted.World Scripted.generate_content json_loads
        topic evidence_found w.

Definition analyze_fact :=
  analyze_fact Scripted.World Scripted.generate_content Scripted.datetime_now
               Scripted.float_of_str Scripted.repr.

(** [analyze] with the memory bank of the specification. *)
Definition analyze (search : string -> nat -> Res (list SearchResult)) :=
  analyze Scripted.World Scripted.generate_content Scripted.datetime_now
          json_loads Scripted.float_of_str Scripted.repr
          MemoryBank.t MemoryBank.get MemoryBank.store search.

(** The first request for [topic], the searches completing in the order
    third, first, second. *)
Definition first_request (responses : list (Res string)) :=
  analyze search [2; 0; 1] topic (world responses, MemoryBank.empty).

Definition claim_staged (explanation : string) (at_ : Z) : ClaimAnalysis :=
  mkClaimAnalysis "The landing was staged" MISINFORMATION 0.9%Q explanation
                  [ mkEvidence "Apollo 11 at fifty" "https://www.bbc.com/news/x"
                      "How the landing was tracked around the world" ]
                  at_ false.
Definition claim_flag (explanation : string) (at_ : Z) : ClaimAnalysis :=
  mkClaimAnalysis "The flag waved in the wind" MISINFORMATION 0.8%Q explanation
                  [ mkEvidence "Apollo 11 at fifty" "https://www.bbc.com/news/x"
                      "How the landing was tracked around the world" ]
                  at_ false.

End Sample.

(* ===================================================================== *)
(** ** api.py: the endpoint [POST /analyze] *)
(* ===================================================================== *)

(** [AnalysisRequest]: [topic] has [min_length=1] and [max_length=200];
    the lengths are those of the topic as it is sent. *)
Definition AnalysisRequest_valid (topic : string) : bool :=
  (1 <=? String.length topic) && (String.length topic <=? 200).

Record AnalysisResponse : Type := mkAnalysisResponse {
  response_claims : list ClaimAnalysis;
  response_topic : string;
  response_analyzed_at : Z;
  processing_time : Q;
  response_cached_flag : bool
}.

(** The calls made on [metrics], in the order in which they are made:
    [counter(name).inc()], [counter(name).inc(n)] and
    [histogram(name).observe(v)]. *)
Inductive MetricCall : Type :=
  | counter_inc (name : string) (amount : option nat)
  | histogram_observe (name : string) (value : Q).

(** What the handler gives back: the response, or the [HTTPException] it
    raises. *)
Inductive HTTPResult : Type :=
  | Response (body : AnalysisResponse)
  | HTTPException (status_code : nat) (detail : string).

Section Api.

Variable W : Type.
Variable generate_content : string -> M W string.
Variable datetime_now : W -> Z * W.
Variable json_loads : string -> option JSON.
Variable float_of_str : string -> option Q.
Variable repr : JSON -> string.
Variable MB : Type.
Variable memory_get : string -> MB -> option (list ClaimAnalysis) * MB.
Variable memory_store : string -> list ClaimAnalysis -> MB -> MB.
Variable search : string -> nat -> Res (list SearchResult).

(** [time.time()], in seconds. *)
Variable time_time : W -> Q * W.

(** [str(e)] for an exception [e]. *)
Variable str_of_exn : exn -> string.

(** The handler, on the topic of a request that passed validation.  The
    state holds the world, the memory bank of the coordinator and the calls
    made on [metrics] so far. *)
Definition analyze_topic (order : list nat) (request_topic : string)
  : W * MB * list MetricCall -> HTTPResult * (W * MB * list MetricCall) :=
  fun '(w, mb, metrics) =>
    let '(start_time, w0) := time_time w in
    let topic := Str.strip request_topic in
    let metrics0 := metrics ++ [counter_inc "analysis_requests_total" None] in
    match analyze W generate_content datetime_now json_loads float_of_str repr
                  MB memory_get memory_store search order topic (w0, mb) with
    | (Ok claims, (w1, mb1)) =>
        let '(end_time, w2) := time_time w1 in
        let elapsed := (end_time - start_time)%Q in
        let metrics1 :=
          metrics0 ++ [ histogram_observe "analysis_duration_seconds" elapsed;
                        counter_inc "claims_analyzed_total" (Some (length claims)) ] in
        let is_cached := response_cached claims in
        let metrics2 :=
          if is_cached
          then metrics1 ++ [counter_inc "cache_hits_total" None]
          else metrics1 in
        let '(now, w3) := datetime_now w2 in
        (Response (mkAnalysisResponse claims topic now elapsed is_cached),
         (w3, mb1, metrics2))
    | (Raise e, (w1, mb1)) =>
        (HTTPException 500 (str_of_exn e),
         (w1, mb1, metrics0 ++ [counter_inc "analysis_errors_total" None]))
    end.

End Api.

(* ===================================================================== *)
(** ** Vocabulary of the further statements *)
(* ===================================================================== *)

(** A text made of whitespace only. *)
Fixpoint all_space (s : string) : bool :=
  match s with
  | EmptyString => true
  | String c s' => Str.isspace c && all_space s'
  end.

(** The credibility labels. *)
Definition labels : list string := ["high"; "low"; "medium"].

(** The exceptions that the coordinator itself lets escape. *)
Definition coordinator_exceptions : list exn :=
  [ IndexError; KeyError "claim"; TypeError; ValueError; OverflowError;
    ValidationError ].

Section Counting.

Variable W : Type.
Variable generate_content : string -> M W string.
Variable datetime_now : W -> Z * W.

(** The language model with a counter of the calls made to it. *)
Definition counted_generate (prompt : string) : M (W * nat) string :=
  fun '(w, n) =>
    let '(r, w') := generate_content prompt w in (r, (w', S n)).

Definition counted_now : W * nat -> Z * (W * nat) :=
  fun '(w, n) => let '(t, w') := datetime_now w in (t, (w', n)).

End Counting.

Module Scenario.

(** The search tool of [Sample.search], out of reach for the second
    query. *)
Definition search_down (query : string) (max_results : nat)
  : Res (list SearchResult) :=
  if String.eqb query "moon landing fact check"
  then Raise (CollaboratorError "timeout")
  else Sample.search query max_results.

Definition time_time (w : Scripted.World) : Q * Scripted.World :=
  (inject_Z (Scripted.clock w),
   Scripted.mkWorld (Scripted.responses w) (Scripted.clock w + 1)%Z).

(** [str(e)]; of the exceptions only [KeyError] is met by the samples. *)
Definition str_of_exn (e : exn) : string :=
  match e with
  | KeyError key => fstring ["'"; key; "'"]
  | _ => "error"
  end.

Definition analyze_topic :=
  analyze_topic Scripted.World Scripted.generate_content Scripted.datetime_now
                Sample.json_loads Scripted.float_of_str Scripted.repr
                MemoryBank.t MemoryBank.get MemoryBank.store Sample.search
                time_time str_of_exn.

(** A result whose body has 210 characters, and the snippet expected for
    it: the first 200 of them. *)
Definition digits : string := "0123456789".
Definition long_body : string := fstring (replicate 21 digits).
Definition long_snippet : string := fstring (replicate 20 digits).
Definition archive : SearchResult :=
  mkSearchResult (Some "The flight log")
                 (Some "https://archive.example.org/log")
                 (Some long_body).

Definition search_archive : string -> nat -> Res (list SearchResult) :=
  Scripted.search
    [ ("moon landing", [archive; Sample.press]);
      ("moon landing fact check", [Sample.bbc_again]);
      ("moon landing misinformation analysis", [archive; Sample.no_link]) ].

(** A search tool whose only result has a URL with a single ['/']. *)
Definition relative : SearchResult :=
  mkSearchResult (Some "Example") (Some "example.com/page") (Some "A page").
Definition search_relative : string -> nat -> Res (list SearchResult) :=
  Scripted.search [ ("moon landing", [relative]) ].

(** A verifier output whose second fact has [null] as ["reasoning"]. *)
Definition fact_unexplained : JSON :=
  JObj [ ("claim", JStr "The flag waved in the wind");
         ("reasoning", JNull) ].
Definition text_unexplained : string :=
  fstring [ "["; Sample.text_staged; ", {";
            Sample.member "claim" (quoted "The flag waved in the wind"); ", ";
            Sample.member "reasoning" "null"; "}]" ].
(** A verifier output whose confidence is the int [10 ** 400]. *)
Definition fact_huge : JSON :=
  JObj [ ("claim", JStr "The landing was staged");
         ("confidence", JNum (inject_Z (10 ^ 400))) ].
Definition text_huge : string :=
  fstring [ "[{"; Sample.member "claim" (quoted "The landing was staged"); ", ";
            Sample.member "confidence" (fstring ("1" :: replicate 400 "0"));
            "}]" ].

Definition json_loads : string -> option JSON :=
  Scripted.json_loads
    [ (text_unexplained, JArr [Sample.fact_staged; fact_unexplained]);
      (text_huge, JArr [fact_huge]) ].

(** The first request for [Sample.topic] with these verifier outputs. *)
Definition first_request (responses : list (Res string)) :=
  analyze Scripted.World Scripted.generate_content Scripted.datetime_now
          json_loads Scripted.float_of_str Scripted.repr
          MemoryBank.t MemoryBank.get MemoryBank.store Sample.search
          [2; 0; 1] Sample.topic (Sample.world responses, MemoryBank.empty).

(** [analyze] with the calls of the language model counted. *)
Definition counted_analyze :=
  analyze (Scripted.World * nat)
          (counted_generate Scripted.World Scripted.generate_content)
          (counted_now Scripted.World Scripted.datetime_now)
          Sample.json_loads Scripted.float_of_str Scripted.repr
          MemoryBank.t MemoryBank.get MemoryBank.store Sample.search.

End Scenario.

(* ===================================================================== *)
(** * Properties *)
(* ===================================================================== *)

(** ** Lists and strings *)

Lemma filter_ext_bool {A} (f g : A -> bool) (l : list A) :
  (forall x, f x = g x) -> List.filter f l = List.filter g l.
Proof.
  intros Hfg. induction l as [|x l IH]; simpl; [done|].
  rewrite Hfg, IH. done.
Qed.

Lemma filter_filter_bool {A} (f g : A -> bool) (l : list A) :
  List.filter f (List.filter g l) = List.filter (fun x => g x && f x) l.
Proof.
  induction l as [|x l IH]; simpl; [done|].
  destruct (g x); simpl; [destruct (f x)|]; rewrite ?IH; done.
Qed.

Lemma filter_bool_In {A} (f : A -> bool) (l : list A) (x : A) :
  x ∈ List.filter f l -> x ∈ l /\ f x = true.
Proof.
  rewrite !list_elem_of_In. intros H. by apply filter_In in H.
Qed.

Lemma NoDup_fmap_filter_bool {A B} (h : A -> B) (f : A -> bool) (l : list A) :
  NoDup (map h l) -> NoDup (map h (List.filter f l)).
Proof.
  induction l as [|x l IH]; simpl; [done|].
  rewrite NoDup_cons. intros [Hx Hl].
  destruct (f x); simpl; [|by apply IH].
  apply NoDup_cons. split; [|by apply IH].
  intros Hin. apply Hx.
  apply list_elem_of_fmap in Hin as (y & -> & Hy).
  apply list_elem_of_fmap. exists y. split; [done|].
  by apply filter_bool_In in Hy as [? _].
Qed.

(** The slice [s[:n]] is the substring of [s] that starts at 0 and has
    the length [n]. *)
Lemma take_substring (n : nat) (s : string) :
  Str.take n s = String.substring 0 n s.
Proof.
  revert s. induction n as [|n IH]; intros [|c s]; try reflexivity.
  change (String c (Str.take n s) = String c (String.substring 0 n s)).
  by rewrite IH.
Qed.

Lemma substring_prefix (n : nat) (s : string) :
  String.prefix (String.substring 0 n s) s = true.
Proof.
  revert s. induction n as [|n IH]; intros [|c s]; try reflexivity.
  change (String.prefix (String c (String.substring 0 n s)) (String c s) = true).
  cbn [String.prefix]. destruct (ascii_dec c c); [apply IH|done].
Qed.

Lemma substring_length (n : nat) (s : string) :
  String.length (String.substring 0 n s) = min n (String.length s).
Proof.
  revert s. induction n as [|n IH]; intros [|c s]; try reflexivity.
  change (S (String.length (String.substring 0 n s))
          = S (min n (String.length s))).
  by rewrite IH.
Qed.

Lemma take_length_le (n : nat) (s : string) : String.length (Str.take n s) <= n.
Proof.
  revert s. induction n as [|n IH]; intros [|c s]; simpl; try lia.
  specialize (IH s). lia.
Qed.

(** ** asyncio.gather *)

Lemma first_raised_all_ok {A} (order : list nat) (outcomes : list (Res A)) :
  Forall (fun r => is_ok r = true) outcomes -> first_raised order outcomes = None.
Proof.
  intros Hall. induction order as [|i order IH]; simpl; [done|].
  destruct (outcomes !! i) as [[a|e]|] eqn:Hi; try done.
  rewrite Forall_forall in Hall.
  apply list_elem_of_lookup_2 in Hi. by apply Hall in Hi.
Qed.

(** ** EvidenceGathererAgent *)


Lemma same_url_trans_l r x y :
  same_url r x = true -> same_url x y = same_url r y.
Proof.
  unfold same_url. intros H. apply bool_decide_eq_true in H.
  by rewrite H.
Qed.

Lemma filter_first_by_url r (l : list SearchResult) :
  List.filter (fun r' => negb (same_url r r')) (first_by_url l)
  = first_by_url (List.filter (fun r' => negb (same_url r r')) l).
Proof.
  induction l as [|x l IH]; simpl; [done|].
  destruct (same_url r x) eqn:Hrx; simpl.
  - rewrite <- IH, filter_filter_bool.
    apply filter_ext_bool. intros y.
    rewrite (same_url_trans_l _ _ _ Hrx). by destruct (same_url r y).
  - f_equal. rewrite <- IH, !filter_filter_bool.
    apply filter_ext_bool. intros y. apply andb_comm.
Qed.

Lemma fresh_union seen u r r' :
  r_href r = Some u ->
  fresh (seen ∪ {[ u ]}) r' = fresh seen r' && negb (same_url r r').
Proof.
  intros Hr. unfold fresh, same_url. rewrite Hr.
  destruct (r_href r') as [u'|]; [|done].
  destruct (nonempty u'); simpl; [|done].
  destruct (decide (u' = u)) as [->|Hne].
  - rewrite (bool_decide_eq_true_2 (u ∈ seen ∪ {[u]})) by set_solver.
    rewrite (bool_decide_eq_true_2 (Some u = Some u)) by done.
    by rewrite andb_false_r.
  - rewrite (bool_decide_eq_false_2 (Some u = Some u')); [|congruence].
    rewrite andb_true_r. f_equal.
    apply bool_decide_ext. rewrite elem_of_union, elem_of_singleton. tauto.
Qed.

Lemma fold_add_result (rs : list SearchResult) acc seen :
  fst (fold_left add_result rs (acc, seen))
  = acc ++ map to_evidence (first_by_url (List.filter (fresh seen) rs)).
Proof.
  revert acc seen. induction rs as [|r rs IH]; intros acc seen; simpl.
  { by rewrite app_nil_r. }
  unfold fresh at 1. destruct (r_href r) as [u|] eqn:Hr; [|apply IH].
  simpl.
  destruct (nonempty u && negb (bool_decide (u ∈ seen))) eqn:Hfresh; [|apply IH].
  rewrite IH. cbn [first_by_url map]. rewrite <- app_assoc.
  cbn [app]. unfold to_evidence at 2. rewrite Hr, <- take_substring.
  cbn [default]. do 2 f_equal.
  rewrite filter_first_by_url, filter_filter_bool. do 2 f_equal.
  apply filter_ext_bool. intros r'. by apply fresh_union.
Qed.

Lemma fresh_empty r : fresh ∅ r = has_url r.
Proof.
  unfold fresh, has_url. destruct (r_href r) as [u|]; [|done].
  rewrite bool_decide_eq_false_2; [|set_solver]. apply andb_true_r.
Qed.

Lemma merge_three (r1 r2 r3 : list SearchResult) :
  fst (merge [r1; r2; r3])
  = map to_evidence (first_by_url (List.filter has_url (r1 ++ r2 ++ r3))).
Proof.
  unfold merge. simpl. rewrite <- !fold_left_app, fold_add_result. simpl.
  do 2 f_equal. apply filter_ext_bool, fresh_empty.
Qed.

Lemma first_by_url_has_url (l : list SearchResult) (r : SearchResult) :
  Forall (fun r => has_url r = true) l -> r ∈ first_by_url l -> has_url r = true.
Proof.
  intros Hall. revert r. induction Hall as [|x l Hx Hl IH]; simpl; intros r.
  - by intros ?%elem_of_nil.
  - rewrite elem_of_cons. intros [->|Hin]; [done|].
    apply filter_bool_In in Hin as [Hin _]. by apply IH.
Qed.

Lemma first_by_url_NoDup (l : list SearchResult) :
  Forall (fun r => has_url r = true) l ->
  NoDup (map (fun r => url (to_evidence r)) (first_by_url l)).
Proof.
  intros Hall. induction Hall as [|r l Hr Hl IH]; simpl; [constructor|].
  apply NoDup_cons. split.
  - intros Hin. apply list_elem_of_fmap in Hin as (r' & He & Hin).
    apply filter_bool_In in Hin as [Hin Hneq].
    apply negb_true_iff, bool_decide_eq_false in Hneq.
    pose proof (first_by_url_has_url _ _ Hl Hin) as Hr'.
    unfold has_url in Hr, Hr'.
    destruct (r_href r), (r_href r'); simpl in He; congruence.
  - by apply NoDup_fmap_filter_bool.
Qed.

Lemma merged_evidence_length (rs : list SearchResult) :
  length (merged_evidence rs) <= 8.
Proof. unfold merged_evidence. rewrite length_take. lia. Qed.

Lemma merged_evidence_snippets (rs : list SearchResult) :
  Forall (fun e => String.length (snippet e) <= 200) (merged_evidence rs).
Proof.
  unfold merged_evidence. apply Forall_take, Forall_fmap, Forall_forall.
  intros r _.
  change (String.length (String.substring 0 200 (default "" (r_body r))) <= 200).
  rewrite <- take_substring. apply take_length_le.
Qed.

(** Each evidence of the merged sequence is made from a result with its
    URL, and its snippet is the start of the body of that result. *)
Lemma merged_evidence_truncates (rs : list SearchResult) :
  Forall (fun e =>
            exists r,
              r ∈ rs /\ r_href r = Some (url e)
              /\ String.prefix (snippet e) (default "" (r_body r)) = true
              /\ String.length (snippet e)
                 = min 200 (String.length (default "" (r_body r))))
         (merged_evidence rs).
Proof.
  unfold merged_evidence. apply Forall_take, Forall_fmap, Forall_forall.
  intros r Hr. exists r.
  assert (r ∈ List.filter has_url rs) as Hin.
  { clear -Hr. revert r Hr.
    induction (List.filter has_url rs) as [|x l IH]; intros r;
      cbn [first_by_url]; [done|].
    rewrite !elem_of_cons. intros [->|Hr]; [by left|right].
    apply filter_bool_In in Hr as [Hr _]. by apply IH. }
  apply filter_bool_In in Hin as [Hin Hurl]. split; [done|].
  unfold to_evidence. cbn [url snippet]. unfold has_url in Hurl.
  destruct (r_href r) as [u|]; [|done]. split; [done|].
  split; [apply substring_prefix|apply substring_length].
Qed.

Lemma merged_evidence_NoDup (rs : list SearchResult) :
  NoDup (map url (merged_evidence rs)).
Proof.
  unfold merged_evidence.
  change (NoDup (url <$> take 8 (to_evidence <$> first_by_url (List.filter has_url rs)))).
  rewrite fmap_take. eapply sublist_NoDup; [|apply sublist_take].
  rewrite <- list_fmap_compose.
  apply first_by_url_NoDup, Forall_forall.
  intros r Hr. by apply filter_bool_In in Hr as [_ ?].
Qed.

(** C3.  Whatever the order in which the three searches complete, [gather]
    asks the search tool for the topic, the topic followed by " fact check"
    and the topic followed by " misinformation analysis" (three results
    each) and for nothing else; it returns the results of the first query,
    then of the second, then of the third, with only the first result
    of each URL kept and the sequence cut to its first 8 items.  The
    snippet of each evidence is the start of the body of its result: the
    first 200 characters, or the whole body when that is shorter. *)
Theorem gather_merges_in_query_order
    (search : string -> nat -> Res (list SearchResult))
    (order : list nat) (topic : string) (r1 r2 r3 : list SearchResult) :
  search topic 3 = Ok r1 ->
  search (topic +:+ " fact check") 3 = Ok r2 ->
  search (topic +:+ " misinformation analysis") 3 = Ok r3 ->
  queries topic
    = [topic; topic +:+ " fact check"; topic +:+ " misinformation analysis"]
  /\ gather search order topic = Ok (merged_evidence (r1 ++ r2 ++ r3))
  /\ length (merged_evidence (r1 ++ r2 ++ r3)) <= 8
  /\ Forall (fun e => String.length (snippet e) <= 200)
            (merged_evidence (r1 ++ r2 ++ r3))
  /\ NoDup (map url (merged_evidence (r1 ++ r2 ++ r3)))
  /\ Forall (fun e =>
               exists r,
                 r ∈ r1 ++ r2 ++ r3 /\ r_href r = Some (url e)
                 /\ String.prefix (snippet e) (default "" (r_body r)) = true
                 /\ String.length (snippet e)
                    = min 200 (String.length (default "" (r_body r))))
            (merged_evidence (r1 ++ r2 ++ r3)).
Proof.
  intros H1 H2 H3.
  assert (queries topic
          = [topic; topic +:+ " fact check"; topic +:+ " misinformation analysis"])
    as Hq.
  { reflexivity. }
  split; [exact Hq|]. split.
  - unfold gather. rewrite Hq. cbn [map]. rewrite H1, H2, H3.
    unfold asyncio_gather.
    rewrite first_raised_all_ok by (repeat constructor).
    cbn [collect res_bind]. by rewrite merge_three.
  - split; [apply merged_evidence_length|].
    split; [apply merged_evidence_snippets|].
    split; [apply merged_evidence_NoDup|apply merged_evidence_truncates].
Qed.

(** ** Strings: strip and replace *)

Lemma append_cons (c : ascii) (s t : string) :
  String c s +:+ t = String c (s +:+ t).
Proof. reflexivity. Qed.

Lemma append_assoc_str (s t u : string) : (s +:+ t) +:+ u = s +:+ (t +:+ u).
Proof.
  induction s as [|c s IH]; [done|].
  by rewrite !append_cons, IH.
Qed.

Lemma rstrip_cons (c : ascii) (s : string) :
  Str.rstrip (String c s)
  = match Str.rstrip s with
    | EmptyString => if Str.isspace c then EmptyString else String c EmptyString
    | r => String c r
    end.
Proof. reflexivity. Qed.

Lemma rstrip_app (s t : string) :
  t <> EmptyString -> Str.rstrip t = t -> Str.rstrip (s +:+ t) = s +:+ t.
Proof.
  intros Hne Ht. induction s as [|c s IH]; [done|].
  rewrite append_cons, rstrip_cons, IH.
  destruct (s +:+ t) eqn:Hst; [|done].
  destruct s; [done|]. by rewrite append_cons in Hst.
Qed.

Lemma replace_from_cons (old new : string) (c : ascii) (s : string) :
  Str.replace_from old new 0 (String c s)
  = if String.prefix old (String c s)
    then new +:+ Str.replace_from old new (String.length old - 1) s
    else String c (Str.replace_from old new 0 s).
Proof. reflexivity. Qed.

Lemma replace_from_skip (old new : string) (k : nat) (c : ascii) (s : string) :
  Str.replace_from old new (S k) (String c s) = Str.replace_from old new k s.
Proof. reflexivity. Qed.

Lemma prefix_cons (a b : ascii) (s1 s2 : string) :
  String.prefix (String a s1) (String b s2)
  = if ascii_dec a b then String.prefix s1 s2 else false.
Proof. reflexivity. Qed.

(** A text that holds no character [c0] holds no occurrence of a string
    that starts with [c0]: [replace] passes over it. *)
Lemma replace_from_app (c0 : ascii) (old' new body rest : string) :
  Str.contains (String c0 EmptyString) body = false ->
  Str.replace_from (String c0 old') new 0 (body +:+ rest)
  = body +:+ Str.replace_from (String c0 old') new 0 rest.
Proof.
  induction body as [|c body IH]; intros Hbody; [done|].
  change (String.prefix (String c0 EmptyString) (String c body)
          || Str.contains (String c0 EmptyString) body = false) in Hbody.
  apply orb_false_iff in Hbody as [Hc Hbody].
  rewrite append_cons, replace_from_cons, prefix_cons.
  rewrite prefix_cons in Hc.
  destruct (ascii_dec c0 c); [by destruct body|].
  by rewrite IH.
Qed.

Lemma prefix_nil (s : string) : String.prefix EmptyString s = true.
Proof. by destruct s. Qed.

Lemma prefix_app (p rest : string) : String.prefix p (p +:+ rest) = true.
Proof.
  induction p as [|a p IH]; [apply prefix_nil|].
  rewrite append_cons, prefix_cons. by destruct (ascii_dec a a).
Qed.

Lemma replace_from_skip_app (old new s rest : string) :
  Str.replace_from old new (String.length s) (s +:+ rest)
  = Str.replace_from old new 0 rest.
Proof.
  induction s as [|c s IH]; [done|].
  by rewrite append_cons.
Qed.

(** An occurrence of [old] at the head is replaced by [new]. *)
Lemma replace_from_occurrence (c : ascii) (old' new rest : string) :
  Str.replace_from (String c old') new 0 (String c old' +:+ rest)
  = new +:+ Str.replace_from (String c old') new 0 rest.
Proof.
  rewrite <- (replace_from_skip_app (String c old') new old' rest).
  pose proof (prefix_app (String c old') rest) as Hp.
  rewrite append_cons in *. rewrite replace_from_cons, Hp.
  do 2 f_equal. cbn [String.length]. lia.
Qed.

Lemma prefix_app_false (p b r : string) (c : ascii) :
  String.prefix p b = false ->
  Str.contains (String c EmptyString) p = false ->
  String.prefix p (b +:+ String c r) = false.
Proof.
  revert b. induction p as [|a p IH]; intros b Hb Hc.
  { by destruct b. }
  change (String.prefix (String c EmptyString) (String a p)
          || Str.contains (String c EmptyString) p = false) in Hc.
  apply orb_false_iff in Hc as [Hca Hc]. rewrite prefix_cons in Hca.
  destruct b as [|d b].
  - change (EmptyString +:+ String c r) with (String c r).
    rewrite prefix_cons. destruct (ascii_dec a c) as [->|]; [|done].
    destruct (ascii_dec c c); [by destruct p|done].
  - rewrite append_cons, prefix_cons. rewrite prefix_cons in Hb.
    destruct (ascii_dec a d); [by apply IH|done].
Qed.


(** [replace("```json", "")] leaves a text alone that opens with a plain
    fence, holds no other backquote and does not go on with [json]. *)
Lemma replace_json_plain_fence (body : string) :
  Str.contains "`" body = false ->
  String.prefix "json" body = false ->
  Str.replace_from "```json" "" 0 ("```" +:+ body +:+ "```")
  = "```" +:+ body +:+ "```".
Proof.
  intros Hbody Hjson. destruct body as [|c b]; [reflexivity|].
  assert (c <> "`"%char) as Hc.
  { change (String.prefix "`" (String c b) || Str.contains "`" b = false) in Hbody.
    apply orb_false_iff in Hbody as [Hbody _]. rewrite prefix_cons in Hbody.
    intros ->. by destruct (ascii_dec "`" "`"), b. }
  rewrite !append_cons.
  change (EmptyString +:+ String c (b +:+ "```")) with (String c (b +:+ "```")).
  set (rest := String c (b +:+ "```")).
  assert (String.prefix "```json" (String "`" (String "`" (String "`" rest)))
          = false) as H0.
  { change (String.prefix "json" (String c b +:+ String "`" "``") = false).
    by apply prefix_app_false. }
  assert (String.prefix "```json" (String "`" (String "`" rest)) = false) as H1.
  { change (String.prefix "`json" rest = false). unfold rest.
    rewrite prefix_cons. by destruct (ascii_dec "`" c). }
  assert (String.prefix "```json" (String "`" rest) = false) as H2.
  { change (String.prefix "``json" rest = false). unfold rest.
    rewrite prefix_cons. by destruct (ascii_dec "`" c). }
  rewrite replace_from_cons, H0, replace_from_cons, H1, replace_from_cons, H2.
  do 3 f_equal. unfold rest.
  change (String c (b +:+ "```")) with (String c b +:+ "```").
  by rewrite replace_from_app.
Qed.

Section FactCheckerProperties.

Variable W : Type.
Variable generate_content : string -> M W string.
Variable json_loads : string -> option JSON.

Local Abbreviation check_ := (check W generate_content json_loads).


(** A response wrapped in code fences is parsed without them. *)
Lemma clean_fenced (body : string) :
  Str.contains "`" body = false ->
  clean (fence_json +:+ body +:+ fence) = Str.strip body
  /\ (String.prefix "json" body = false ->
      clean (fence +:+ body +:+ fence) = Str.strip body).
Proof.
  intros Hbody. unfold clean, fence_json, fence, Str.replace.
  assert (forall pre : string,
            Str.lstrip (String "`" pre) = String "`" pre) as Hl by done.
  assert (forall pre : string,
            Str.rstrip (pre +:+ "```") = pre +:+ "```") as Hr.
  { intros pre. by apply rstrip_app. }
  assert (forall rest : string,
            Str.replace_from "```json" "" 0 ("```json" +:+ rest)
            = Str.replace_from "```json" "" 0 rest) as Hj
    by (intros; apply replace_from_occurrence).
  assert (forall rest : string,
            Str.replace_from "```" "" 0 ("```" +:+ rest)
            = Str.replace_from "```" "" 0 rest) as Hf
    by (intros; apply replace_from_occurrence).
  assert (forall x : string,
            Str.strip ("```" +:+ x +:+ "```") = "```" +:+ x +:+ "```") as Hs.
  { intros x. unfold Str.strip.
    by rewrite !append_cons, Hl, <- !append_cons, <- append_assoc_str, Hr. }
  split; [|intros Hjson].
  - change ("```json" +:+ body +:+ "```")
      with ("```" +:+ ("json" +:+ body) +:+ "```") at 1.
    rewrite Hs.
    change ("```" +:+ ("json" +:+ body) +:+ "```")
      with ("```json" +:+ body +:+ "```").
    rewrite Hj, (replace_from_app "`") by done.
    change (Str.replace_from "```json" "" 0 "```") with "```".
    rewrite (replace_from_app "`") by done.
    change (Str.replace_from "```" "" 0 "```") with "".
    f_equal. clear. induction body as [|c b IH]; [done|].
    by rewrite append_cons, IH.
  - rewrite Hs, replace_json_plain_fence by done.
    rewrite Hf, (replace_from_app "`") by done.
    change (Str.replace_from "```" "" 0 "```") with "".
    f_equal. clear. induction body as [|c b IH]; [done|].
    by rewrite append_cons, IH.
Qed.

(** What [check] returns once the language model has answered. *)
Lemma check_answered topic evidence w text w' :
  generate_content (fact_check_prompt topic evidence) w = (Ok text, w') ->
  check_ topic evidence w
  = match json_loads (clean text) with
    | None => (Ok [], w')
    | Some v =>
        match py_len v with
        | Raise _ => (Ok [], w')
        | Ok _ => (Ok (match v with JArr items => items | _ => [v] end), w')
        end
    end.
Proof.
  intros Hgen. unfold check, check_body, try_exceptM, bind, lift, ret.
  fold (fact_check_prompt topic evidence). rewrite Hgen.
  destruct (json_loads (clean text)) as [v|]; [|done].
  by destruct (py_len v).
Qed.

Lemma check_not_answered topic evidence w e w' :
  generate_content (fact_check_prompt topic evidence) w = (Raise e, w') ->
  check_ topic evidence w = (Ok [], w').
Proof.
  intros Hgen. unfold check, check_body, try_exceptM, bind.
  fold (fact_check_prompt topic evidence). by rewrite Hgen.
Qed.

Lemma check_total topic evidence w :
  exists facts w', check_ topic evidence w = (Ok facts, w').
Proof.
  destruct (generate_content (fact_check_prompt topic evidence) w)
    as [[text|e] w'] eqn:Hgen.
  - rewrite (check_answered _ _ _ _ _ Hgen).
    destruct (json_loads (clean text)) as [v|]; [|by eauto].
    destruct (py_len v); eauto.
  - rewrite (check_not_answered _ _ _ _ _ Hgen). eauto.
Qed.

(** C8.  [check] never raises: it always returns a sequence.  When the
    language model raises, or when the cleaned response does not parse as
    JSON, the sequence is empty.  The text handed to the JSON parser is
    the response with its code fences removed: a response made of an
    opening fence, a body without backquote and a closing fence is
    parsed as the stripped body. *)
Theorem check_absorbs_failures topic evidence w :
  (exists facts w', check_ topic evidence w = (Ok facts, w'))
  /\ (forall e w',
        generate_content (fact_check_prompt topic evidence) w = (Raise e, w') ->
        check_ topic evidence w = (Ok [], w'))
  /\ (forall text w',
        generate_content (fact_check_prompt topic evidence) w = (Ok text, w') ->
        json_loads (clean text) = None ->
        check_ topic evidence w = (Ok [], w'))
  /\ (forall text w' items,
        generate_content (fact_check_prompt topic evidence) w = (Ok text, w') ->
        json_loads (clean text) = Some (JArr items) ->
        check_ topic evidence w = (Ok items, w'))
  /\ (forall body,
        Str.contains "`" body = false ->
        clean (fence_json +:+ body +:+ fence) = Str.strip body
        /\ (String.prefix "json" body = false ->
            clean (fence +:+ body +:+ fence) = Str.strip body)).
Proof.
  split; [apply check_total|].
  split; [apply check_not_answered|].
  split; [|split].
  - intros text w' Hgen Hparse.
    by rewrite (check_answered _ _ _ _ _ Hgen), Hparse.
  - intros text w' items Hgen Hparse.
    by rewrite (check_answered _ _ _ _ _ Hgen), Hparse.
  - apply clean_fenced.
Qed.

(** A parsed value that has a length and is not a list comes back as the
    only element of a list. *)
Lemma check_wraps_sized_value topic evidence w text w' v n :
  generate_content (fact_check_prompt topic evidence) w = (Ok text, w') ->
  json_loads (clean text) = Some v ->
  py_len v = Ok n ->
  is_list v = false ->
  check_ topic evidence w = (Ok [v], w').
Proof.
  intros Hgen Hparse Hlen Hlist.
  rewrite (check_answered _ _ _ _ _ Hgen), Hparse, Hlen.
  by destruct v.
Qed.

(** C10.  A response that parses as a JSON number, boolean or null is
    not wrapped in a list: the log line that formats [len(claims)] raises
    [TypeError] first, the handler catches it and [check] returns the
    empty sequence. *)
Theorem check_drops_value_without_length topic evidence w text w' v :
  generate_content (fact_check_prompt topic evidence) w = (Ok text, w') ->
  json_loads (clean text) = Some v ->
  py_len v = Raise TypeError ->
  is_list v = false
  /\ check_ topic evidence w = (Ok [], w')
  /\ check_ topic evidence w <> (Ok [v], w').
Proof.
  intros Hgen Hparse Hlen.
  rewrite (check_answered _ _ _ _ _ Hgen), Hparse, Hlen.
  split; [by destruct v|]. split; [done|]. intros [=].
Qed.

End FactCheckerProperties.

(** ** ExplainerAgent and the loop of the coordinator *)


Lemma select_evidence_preferred credibility_map (evidence : list Evidence) :
  select_evidence credibility_map evidence
  = preferred_evidence credibility_map evidence.
Proof.
  unfold select_evidence, preferred_evidence.
  destruct (existsb (is_high credibility_map) evidence) eqn:Hex.
  - destruct (List.filter (is_high credibility_map) evidence) eqn:Hf; [|done].
    apply existsb_exists in Hex as (e & Hin & He).
    assert (In e (List.filter (is_high credibility_map) evidence)) as Hin'
      by (by apply filter_In).
    rewrite Hf in Hin'. destruct Hin'.
  - destruct (List.filter (is_high credibility_map) evidence) as [|e l] eqn:Hf;
      [done|].
    assert (In e (List.filter (is_high credibility_map) evidence)) as Hin
      by (rewrite Hf; by left).
    apply filter_In in Hin as [Hin He].
    assert (existsb (is_high credibility_map) evidence = true) as Hex'
      by (apply existsb_exists; eauto).
    congruence.
Qed.

Section CoordinatorProperties.

Variable W : Type.
Variable generate_content : string -> M W string.
Variable datetime_now : W -> Z * W.
Variable json_loads : string -> option JSON.
Variable float_of_str : string -> option Q.
Variable repr : JSON -> string.

Local Abbreviation explain_ := (explain W generate_content repr).
Local Abbreviation analyze_fact_ :=
  (analyze_fact W generate_content datetime_now float_of_str repr).
Local Abbreviation analyze_claims_ :=
  (analyze_claims W generate_content datetime_now float_of_str repr).
Local Abbreviation check_ := (check W generate_content json_loads).

Lemma explain_cases claim_v reasoning evidence w :
  explain_ claim_v reasoning evidence w
  = match generate_content (explain_prompt repr claim_v reasoning evidence) w with
    | (Ok text, w') => (Ok (JStr text), w')
    | (Raise _, w') => (Ok reasoning, w')
    end.
Proof.
  unfold explain, try_exceptM, bind, ret.
  by destruct (generate_content _ w) as [[text|e] w'].
Qed.

Lemma explain_total claim_v reasoning evidence w :
  exists v w', explain_ claim_v reasoning evidence w = (Ok v, w')
               /\ (v = reasoning \/ exists text, v = JStr text).
Proof.
  rewrite explain_cases.
  destruct (generate_content _ w) as [[text|e] w']; eauto 6.
Qed.

(** The loop body, read off in the order in which it evaluates. *)
Lemma analyze_fact_cases credibility_map evidence fact w :
  analyze_fact_ credibility_map evidence fact w
  = let selected := preferred_evidence credibility_map evidence in
    match py_getitem fact "claim" with
    | Raise e => (Raise e, w)
    | Ok claim_v =>
        match py_get fact "reasoning" (JStr "") with
        | Raise e => (Raise e, w)
        | Ok reasoning =>
            match explain_ claim_v reasoning selected w with
            | (Raise e, w1) => (Raise e, w1)
            | (Ok explanation_v, w1) =>
                match verifier_confidence float_of_str fact with
                | Raise e => (Raise e, w1)
                | Ok conf =>
                    (ClaimAnalysis_new claim_v MISINFORMATION conf explanation_v
                       selected (datetime_now w1).1 false,
                     (datetime_now w1).2)
                end
            end
        end
    end.
Proof.
  unfold analyze_fact, verifier_confidence, bind, lift.
  rewrite select_evidence_preferred. cbn zeta.
  destruct (py_getitem fact "claim") as [claim_v|]; [|done].
  destruct (py_get fact "reasoning" (JStr "")) as [reasoning|]; [|done].
  destruct (explain_ _ _ _ w) as [[explanation_v|] w1]; [|done].
  destruct (py_get fact "confidence" (JNum 0.8%Q)) as [conf_v|]; [|done].
  cbn [res_bind].
  destruct (py_float float_of_str conf_v) as [conf|]; [|done].
  by destruct (datetime_now w1).
Qed.

Lemma analyze_fact_claim credibility_map ev fact w c w' :
  analyze_fact_ credibility_map ev fact w = (Ok c, w') ->
  claim_of_fact float_of_str credibility_map ev fact c.
Proof.
  rewrite analyze_fact_cases. cbn zeta. unfold claim_of_fact.
  destruct (py_getitem fact "claim") as [claim_v|]; [|done].
  destruct (py_get fact "reasoning" (JStr "")) as [reasoning|]; [|done].
  destruct (explain_ _ _ _ w) as [[explanation_v|] w1]; [|done].
  destruct (verifier_confidence float_of_str fact) as [conf|]; [|done].
  unfold ClaimAnalysis_new.
  destruct claim_v; try done. destruct explanation_v; try done.
  destruct (Qle_bool 0 conf && Qle_bool conf 1); [|done].
  by intros [= <- _].
Qed.

Lemma analyze_fact_in_range credibility_map ev fact w c w' :
  analyze_fact_ credibility_map ev fact w = (Ok c, w') ->
  in_unit_interval (confidence c) = true.
Proof.
  rewrite analyze_fact_cases. cbn zeta.
  destruct (py_getitem fact "claim") as [claim_v|]; [|done].
  destruct (py_get fact "reasoning" (JStr "")) as [reasoning|]; [|done].
  destruct (explain_ _ _ _ w) as [[explanation_v|] w1]; [|done].
  destruct (verifier_confidence float_of_str fact) as [conf|]; [|done].
  unfold ClaimAnalysis_new, in_unit_interval.
  destruct claim_v; try done. destruct explanation_v; try done.
  destruct (Qle_bool 0 conf && Qle_bool conf 1) eqn:Hq; [|done].
  by intros [= <- _].
Qed.

Lemma analyze_fact_well_formed credibility_map ev fact w :
  well_formed_fact float_of_str fact = true ->
  exists c w', analyze_fact_ credibility_map ev fact w = (Ok c, w').
Proof.
  unfold well_formed_fact. rewrite analyze_fact_cases. cbn zeta.
  destruct (py_getitem fact "claim") as [[| | |cl| |]|]; try done.
  destruct (py_get fact "reasoning" (JStr "")) as [[| | |r| |]|]; try done.
  destruct (verifier_confidence float_of_str fact) as [conf|]; [|done].
  intros Hq.
  destruct (explain_total (JStr cl) (JStr r)
              (preferred_evidence credibility_map ev) w)
    as (v & w1 & -> & Hv).
  unfold ClaimAnalysis_new. fold (in_unit_interval conf). rewrite Hq.
  destruct Hv as [->|[text ->]]; eauto.
Qed.

Lemma analyze_claims_cons credibility_map ev fact facts acc w :
  analyze_claims_ credibility_map ev (fact :: facts) acc w
  = match analyze_fact_ credibility_map ev fact w with
    | (Ok c, w1) => analyze_claims_ credibility_map ev facts (acc ++ [c]) w1
    | (Raise e, w1) => (Raise e, w1)
    end.
Proof. reflexivity. Qed.

(** The claims already collected are only extended. *)
Lemma analyze_claims_acc credibility_map ev facts acc w :
  analyze_claims_ credibility_map ev facts acc w
  = match analyze_claims_ credibility_map ev facts [] w with
    | (Ok cs, w') => (Ok (acc ++ cs), w')
    | (Raise e, w') => (Raise e, w')
    end.
Proof.
  revert acc w. induction facts as [|fact facts IH]; intros acc w.
  { cbn. unfold ret. by rewrite app_nil_r. }
  rewrite !analyze_claims_cons.
  destruct (analyze_fact_ credibility_map ev fact w) as [[c|e] w1]; [|done].
  rewrite (IH (acc ++ [c])), (IH ([] ++ [c])).
  destruct (analyze_claims_ credibility_map ev facts [] w1) as [[cs|e] w2];
    [|done].
  by rewrite <- app_assoc.
Qed.

(** The loop over [facts1 ++ fact :: facts2] is the loop over [facts1],
    the body at [fact] and the loop over [facts2], one after the other. *)
Lemma analyze_claims_split credibility_map ev facts1 fact facts2 w :
  analyze_claims_ credibility_map ev (facts1 ++ fact :: facts2) [] w
  = match analyze_claims_ credibility_map ev facts1 [] w with
    | (Raise e, w1) => (Raise e, w1)
    | (Ok cs1, w1) =>
        match analyze_fact_ credibility_map ev fact w1 with
        | (Raise e, w2) => (Raise e, w2)
        | (Ok c, w2) =>
            match analyze_claims_ credibility_map ev facts2 [] w2 with
            | (Raise e, w3) => (Raise e, w3)
            | (Ok cs2, w3) => (Ok (cs1 ++ c :: cs2), w3)
            end
        end
    end.
Proof.
  revert w. induction facts1 as [|f facts1 IH]; intros w.
  - cbn [app]. rewrite analyze_claims_cons.
    change (analyze_claims_ credibility_map ev [] [] w)
      with (@Ok (list ClaimAnalysis) [], w).
    cbv iota beta.
    destruct (analyze_fact_ credibility_map ev fact w) as [[c|e] w2];
      [|reflexivity].
    by rewrite analyze_claims_acc.
  - rewrite <- app_comm_cons, !analyze_claims_cons.
    destruct (analyze_fact_ credibility_map ev f w) as [[c0|e] w0]; [|done].
    rewrite analyze_claims_acc, IH.
    rewrite (analyze_claims_acc _ _ facts1 ([] ++ [c0])).
    destruct (analyze_claims_ credibility_map ev facts1 [] w0) as [[cs1|e] w1];
      [|done].
    destruct (analyze_fact_ credibility_map ev fact w1) as [[c|e] w2]; [|done].
    destruct (analyze_claims_ credibility_map ev facts2 [] w2) as [[cs2|e] w3];
      [|done].
    by rewrite <- !app_assoc.
Qed.

Lemma analyze_claims_Forall2 credibility_map ev facts w cs w' :
  analyze_claims_ credibility_map ev facts [] w = (Ok cs, w') ->
  Forall2 (claim_of_fact float_of_str credibility_map ev) facts cs
  /\ Forall (fun c => in_unit_interval (confidence c) = true) cs.
Proof.
  revert w cs w'. induction facts as [|fact facts IH]; intros w cs w'.
  { intros [= <- _]. split; constructor. }
  rewrite analyze_claims_cons.
  destruct (analyze_fact_ credibility_map ev fact w) as [[c|e] w1] eqn:Hfact;
    [|done].
  rewrite analyze_claims_acc.
  destruct (analyze_claims_ credibility_map ev facts [] w1) as [[cs'|e] w2]
    eqn:Hrest; [|done].
  intros [= <- _]. destruct (IH _ _ _ Hrest) as [H2 Hr].
  split; constructor; eauto using analyze_fact_claim, analyze_fact_in_range.
Qed.

Lemma analyze_claims_total credibility_map ev facts w :
  forallb (well_formed_fact float_of_str) facts = true ->
  exists cs w', analyze_claims_ credibility_map ev facts [] w = (Ok cs, w').
Proof.
  revert w. induction facts as [|fact facts IH]; intros w Hwf.
  { by eexists _, _. }
  cbn [forallb] in Hwf. apply andb_true_iff in Hwf as [Hfact Hwf].
  rewrite analyze_claims_cons.
  destruct (analyze_fact_well_formed credibility_map ev fact w Hfact)
    as (c & w1 & ->).
  rewrite analyze_claims_acc.
  destruct (IH w1 Hwf) as (cs & w2 & ->). eauto.
Qed.

(** *** CoordinatorAgent.analyze *)

Variable MB : Type.
Variable memory_get : string -> MB -> option (list ClaimAnalysis) * MB.
Variable memory_store : string -> list ClaimAnalysis -> MB -> MB.
Variable search : string -> nat -> Res (list SearchResult).

Local Abbreviation analyze_evidence_ :=
  (analyze_evidence W generate_content datetime_now json_loads float_of_str
                    repr MB memory_store).
Local Abbreviation analyze_ :=
  (analyze W generate_content datetime_now json_loads float_of_str repr
           MB memory_get memory_store search).

Lemma analyze_hit order topic w mb :
  truthy (memory_get topic mb).1 = true ->
  analyze_ order topic (w, mb)
  = (Ok (default [] (memory_get topic mb).1), (w, (memory_get topic mb).2)).
Proof.
  intros Hhit. unfold analyze.
  destruct (memory_get topic mb) as [cached_result mb1].
  cbn [fst snd] in *. by rewrite Hhit.
Qed.

Lemma analyze_miss order topic w mb :
  truthy (memory_get topic mb).1 = false ->
  analyze_ order topic (w, mb)
  = match gather search order topic with
    | Raise e => (Raise e, (w, (memory_get topic mb).2))
    | Ok [] => (Ok [], (w, (memory_get topic mb).2))
    | Ok ev => analyze_evidence_ topic ev (w, (memory_get topic mb).2)
    end.
Proof.
  intros Hmiss. unfold analyze.
  destruct (memory_get topic mb) as [cached_result mb1].
  cbn [fst snd] in *. by rewrite Hmiss.
Qed.

Lemma analyze_evidence_cases topic ev w mb :
  analyze_evidence_ topic ev (w, mb)
  = match assess ev with
    | Raise e => (Raise e, ((check_ topic ev w).2, mb))
    | Ok credibility_map =>
        match check_ topic ev w with
        | (Raise e, w1) => (Raise e, (w1, mb))
        | (Ok facts, w1) =>
            match analyze_claims_ credibility_map ev (take 3 facts) [] w1 with
            | (Raise e, w2) => (Raise e, (w2, mb))
            | (Ok [], w2) => (Ok [], (w2, mb))
            | (Ok claims, w2) => (Ok claims, (w2, memory_store topic claims mb))
            end
        end
    end.
Proof.
  unfold analyze_evidence. destruct (assess ev) as [credibility_map|]; [|done].
  destruct (check_ topic ev w) as [[facts|] w1]; [|done].
  destruct (analyze_claims_ credibility_map ev (take 3 facts) [] w1)
    as [[[|c cs]|] w2]; done.
Qed.

(** What a call of [analyze] does to the memory bank: the lookup, and
    after it at most one [store], of claims that were just built. *)
Lemma analyze_memory_effect order topic w mb r w' mb' :
  analyze_ order topic (w, mb) = (r, (w', mb')) ->
  mb' = (memory_get topic mb).2
  \/ exists claims,
       r = Ok claims /\ claims <> []
       /\ Forall (fun c => cached c = false) claims
       /\ mb' = memory_store topic claims (memory_get topic mb).2.
Proof.
  destruct (truthy (memory_get topic mb).1) eqn:Hhit.
  { rewrite analyze_hit by done. intros [= _ _ <-]. by left. }
  rewrite analyze_miss by done.
  destruct (gather search order topic) as [[|e ev]|].
  1, 3: intros [= _ _ <-]; by left.
  rewrite analyze_evidence_cases.
  destruct (assess (e :: ev)) as [credibility_map|];
    [|intros [= _ _ <-]; by left].
  destruct (check_ topic (e :: ev) w) as [[facts|] w1];
    [|intros [= _ _ <-]; by left].
  destruct (analyze_claims_ credibility_map (e :: ev) (take 3 facts) [] w1)
    as [[[|c cs]|] w2] eqn:Hloop.
  1, 3: intros [= _ _ <-]; by left.
  intros [= <- _ <-]. right. exists (c :: cs).
  split; [done|]. split; [done|]. split; [|done].
  apply analyze_claims_Forall2 in Hloop as [H2 _].
  clear -H2. induction H2 as [|f x fs xs Hx _ IH]; constructor; [|done].
  apply Hx.
Qed.

(** C7.  When the lookup misses and the gatherer returns no evidence,
    [analyze] returns the empty sequence and the memory bank is the one
    the lookup left: nothing is stored.  In every call, the memory bank
    is stored to only with the claims the call returns, and only when
    they are not empty. *)
Theorem analyze_no_evidence_no_store order topic w mb :
  (truthy (memory_get topic mb).1 = false ->
   gather search order topic = Ok [] ->
   analyze_ order topic (w, mb) = (Ok [], (w, (memory_get topic mb).2)))
  /\ (forall r w' mb',
        analyze_ order topic (w, mb) = (r, (w', mb')) ->
        mb' = (memory_get topic mb).2
        \/ exists claims,
             r = Ok claims /\ claims <> []
             /\ mb' = memory_store topic claims (memory_get topic mb).2).
Proof.
  split.
  - intros Hmiss Hgather. by rewrite analyze_miss, Hgather.
  - intros r w' mb' Hrun.
    destruct (analyze_memory_effect _ _ _ _ _ _ _ Hrun)
      as [->|(claims & -> & Hne & _ & ->)]; [by left|right; eauto].
Qed.

(** C9, as the code has it.  When the language model raises during an
    explanation, [explain] returns the reasoning it was given, whatever
    that value is.  In [analyze], on a miss with evidence, let the facts
    processed be [facts1 ++ fact :: facts2] and let the language model
    raise at the explanation of [fact].  When the reasoning of [fact] is
    a string, the claims returned are the claims of [facts1], then the
    claim of [fact] with its reasoning as explanation, then the claims of
    [facts2], each sequence being what the loop builds for these facts on
    its own.  When the reasoning of [fact] is not a string, the value
    that [explain] falls back to is rejected by the validation of
    [ClaimAnalysis]: [analyze] raises [ValidationError], the claims of
    [facts1] are lost and nothing is stored. *)
Theorem explainer_failure_is_local :
  (forall claim_v reasoning ev w e w',
      generate_content (explain_prompt repr claim_v reasoning ev) w
      = (Raise e, w') ->
      explain_ claim_v reasoning ev w = (Ok reasoning, w'))
  /\ (forall order topic w mb ev credibility_map facts w0
             facts1 fact facts2 cs1 w1 cl r q e w2 cs2 w3,
        truthy (memory_get topic mb).1 = false ->
        gather search order topic = Ok ev ->
        ev <> [] ->
        assess ev = Ok credibility_map ->
        check_ topic ev w = (Ok facts, w0) ->
        take 3 facts = facts1 ++ fact :: facts2 ->
        analyze_claims_ credibility_map ev facts1 [] w0 = (Ok cs1, w1) ->
        py_getitem fact "claim" = Ok (JStr cl) ->
        py_get fact "reasoning" (JStr "") = Ok (JStr r) ->
        verifier_confidence float_of_str fact = Ok q ->
        in_unit_interval q = true ->
        generate_content
          (explain_prompt repr (JStr cl) (JStr r)
             (preferred_evidence credibility_map ev)) w1 = (Raise e, w2) ->
        analyze_claims_ credibility_map ev facts2 [] (datetime_now w2).2
        = (Ok cs2, w3) ->
        let c := mkClaimAnalysis cl MISINFORMATION q r
                   (preferred_evidence credibility_map ev)
                   (datetime_now w2).1 false in
        analyze_ order topic (w, mb)
        = (Ok (cs1 ++ c :: cs2),
           (w3, memory_store topic (cs1 ++ c :: cs2) (memory_get topic mb).2)))
  /\ (forall order topic w mb ev credibility_map facts w0
             facts1 fact facts2 cs1 w1 claim_v reasoning q e w2,
        truthy (memory_get topic mb).1 = false ->
        gather search order topic = Ok ev ->
        ev <> [] ->
        assess ev = Ok credibility_map ->
        check_ topic ev w = (Ok facts, w0) ->
        take 3 facts = facts1 ++ fact :: facts2 ->
        analyze_claims_ credibility_map ev facts1 [] w0 = (Ok cs1, w1) ->
        py_getitem fact "claim" = Ok claim_v ->
        py_get fact "reasoning" (JStr "") = Ok reasoning ->
        (forall r, reasoning <> JStr r) ->
        verifier_confidence float_of_str fact = Ok q ->
        generate_content
          (explain_prompt repr claim_v reasoning
             (preferred_evidence credibility_map ev)) w1 = (Raise e, w2) ->
        analyze_ order topic (w, mb)
        = (Raise ValidationError,
           ((datetime_now w2).2, (memory_get topic mb).2))).
Proof.
  split; [|split].
  - intros claim_v reasoning ev w e w' Hgen.
    by rewrite explain_cases, Hgen.
  - intros order topic w mb ev credibility_map facts w0 facts1 fact facts2
           cs1 w1 cl r q e w2 cs2 w3
           Hmiss Hgather Hev Hassess Hcheck Htake Hcs1 Hclaim Hreason Hconf
           Hq Hgen Hcs2 c.
    rewrite analyze_miss, Hgather by done.
    destruct ev as [|e0 ev]; [done|].
    rewrite analyze_evidence_cases, Hassess, Hcheck, Htake.
    rewrite analyze_claims_split, Hcs1, analyze_fact_cases.
    cbn zeta. rewrite Hclaim, Hreason, explain_cases, Hgen, Hconf.
    unfold ClaimAnalysis_new. fold (in_unit_interval q). rewrite Hq.
    cbn [fst snd]. rewrite Hcs2. fold c.
    destruct (cs1 ++ c :: cs2) eqn:Hall; [|done].
    by destruct cs1.
  - intros order topic w mb ev credibility_map facts w0 facts1 fact facts2
           cs1 w1 claim_v reasoning q e w2
           Hmiss Hgather Hev Hassess Hcheck Htake Hcs1 Hclaim Hreason Hnostr
           Hconf Hgen.
    rewrite analyze_miss, Hgather by done.
    destruct ev as [|e0 ev]; [done|].
    rewrite analyze_evidence_cases, Hassess, Hcheck, Htake.
    rewrite analyze_claims_split, Hcs1, analyze_fact_cases.
    cbn zeta. rewrite Hclaim, Hreason, explain_cases, Hgen, Hconf.
    unfold ClaimAnalysis_new.
    destruct claim_v, reasoning; try done; by destruct (Hnostr s0).
Qed.

(** C4.  On a miss with evidence, the claims [analyze] returns match the
    first three facts of the verifier, one claim per fact and in the
    order of the facts.  Each claim has the fact's ["claim"] as text,
    the confidence given by the verifier (0.8 when absent), [cached]
    false, and as evidence the first three items scored high when there
    is one, the first three items of all the evidence otherwise.  The
    claims are returned whenever the facts have the shape the prompt
    asks for. *)
Theorem analyze_builds_claims order topic w mb ev credibility_map facts w0 :
  truthy (memory_get topic mb).1 = false ->
  gather search order topic = Ok ev ->
  ev <> [] ->
  assess ev = Ok credibility_map ->
  check_ topic ev w = (Ok facts, w0) ->
  (forall claims st',
      analyze_ order topic (w, mb) = (Ok claims, st') ->
      Forall2 (claim_of_fact float_of_str credibility_map ev)
              (take 3 facts) claims
      /\ length claims <= 3)
  /\ (forallb (well_formed_fact float_of_str) (take 3 facts) = true ->
      exists claims st', analyze_ order topic (w, mb) = (Ok claims, st')).
Proof.
  intros Hmiss Hgather Hev Hassess Hcheck.
  rewrite analyze_miss, Hgather by done.
  destruct ev as [|e0 ev]; [done|].
  rewrite analyze_evidence_cases, Hassess, Hcheck.
  split.
  - intros claims st'.
    destruct (analyze_claims_ credibility_map (e0 :: ev) (take 3 facts) [] w0)
      as [[cs|] w2] eqn:Hloop; [|done].
    apply analyze_claims_Forall2 in Hloop as [H2 _].
    intros Hrun. assert (claims = cs) as -> by (destruct cs; by inversion Hrun).
    split; [done|].
    apply Forall2_length in H2. rewrite <- H2, length_take. lia.
  - intros Hwf.
    destruct (analyze_claims_total credibility_map (e0 :: ev) _ w0 Hwf)
      as (cs & w2 & ->).
    destruct cs; eauto.
Qed.

(** C5, as the code has it.  A confidence that [float] converts to a
    number outside [0,1] is not clamped: the validation of
    [ClaimAnalysis] rejects it and the loop body raises
    [ValidationError].  Every claim that the loop builds has the
    confidence the verifier gave, and that confidence is in [0,1].  In
    [analyze], on a miss with evidence, a fact with such a confidence
    among the first three, reached by the loop, makes [analyze] raise
    [ValidationError]: no claim is returned and nothing is stored; and
    the claims that [analyze] returns have the confidences the verifier
    gave for the first three facts, all of them in [0,1]. *)
Theorem confidence_validated_not_clamped credibility_map ev :
  (forall fact w claim_v reasoning q,
      py_getitem fact "claim" = Ok claim_v ->
      py_get fact "reasoning" (JStr "") = Ok reasoning ->
      verifier_confidence float_of_str fact = Ok q ->
      in_unit_interval q = false ->
      exists w', analyze_fact_ credibility_map ev fact w
                 = (Raise ValidationError, w'))
  /\ (forall facts w claims w',
        analyze_claims_ credibility_map ev facts [] w = (Ok claims, w') ->
        Forall2 (fun fact c =>
                   verifier_confidence float_of_str fact = Ok (confidence c)
                   /\ in_unit_interval (confidence c) = true)
                facts claims)
  /\ (forall order topic w mb facts w0 facts1 fact facts2 cs1 w1
             claim_v reasoning q,
        truthy (memory_get topic mb).1 = false ->
        gather search order topic = Ok ev ->
        ev <> [] ->
        assess ev = Ok credibility_map ->
        check_ topic ev w = (Ok facts, w0) ->
        take 3 facts = facts1 ++ fact :: facts2 ->
        analyze_claims_ credibility_map ev facts1 [] w0 = (Ok cs1, w1) ->
        py_getitem fact "claim" = Ok claim_v ->
        py_get fact "reasoning" (JStr "") = Ok reasoning ->
        verifier_confidence float_of_str fact = Ok q ->
        in_unit_interval q = false ->
        exists w',
          analyze_ order topic (w, mb)
          = (Raise ValidationError, (w', (memory_get topic mb).2)))
  /\ (forall order topic w mb facts w0 claims st',
        truthy (memory_get topic mb).1 = false ->
        gather search order topic = Ok ev ->
        ev <> [] ->
        assess ev = Ok credibility_map ->
        check_ topic ev w = (Ok facts, w0) ->
        analyze_ order topic (w, mb) = (Ok claims, st') ->
        Forall2 (fun fact c =>
                   verifier_confidence float_of_str fact = Ok (confidence c)
                   /\ in_unit_interval (confidence c) = true)
                (take 3 facts) claims).
Proof.
  assert (forall facts w claims w',
             analyze_claims_ credibility_map ev facts [] w = (Ok claims, w') ->
             Forall2 (fun fact c =>
                        verifier_confidence float_of_str fact
                        = Ok (confidence c)
                        /\ in_unit_interval (confidence c) = true)
                     facts claims) as Hrange.
  { intros facts w claims w' Hloop.
    apply analyze_claims_Forall2 in Hloop as [H2 Hr].
    induction H2 as [|f c fs cs Hc _ IH]; constructor.
    + apply Forall_cons in Hr as [Hr _]. split; [apply Hc|done].
    + apply Forall_cons in Hr as [_ Hr]. by apply IH. }
  assert (forall fact w claim_v reasoning q,
             py_getitem fact "claim" = Ok claim_v ->
             py_get fact "reasoning" (JStr "") = Ok reasoning ->
             verifier_confidence float_of_str fact = Ok q ->
             in_unit_interval q = false ->
             exists w', analyze_fact_ credibility_map ev fact w
                        = (Raise ValidationError, w')) as Hreject.
  { intros fact w claim_v reasoning q Hclaim Hreason Hconf Hq.
    rewrite analyze_fact_cases. cbn zeta. rewrite Hclaim, Hreason.
    destruct (explain_total claim_v reasoning
                (preferred_evidence credibility_map ev) w)
      as (v & w1 & -> & _).
    rewrite Hconf. unfold ClaimAnalysis_new.
    fold (in_unit_interval q). rewrite Hq.
    destruct claim_v, v; eauto. }
  split; [exact Hreject|]. split; [exact Hrange|]. split.
  - intros order topic w mb facts w0 facts1 fact facts2 cs1 w1
           claim_v reasoning q
           Hmiss Hgather Hev Hassess Hcheck Htake Hcs1 Hclaim Hreason
           Hconf Hq.
    rewrite analyze_miss, Hgather by done.
    destruct ev as [|e0 ev']; [done|].
    rewrite analyze_evidence_cases, Hassess, Hcheck, Htake.
    rewrite analyze_claims_split, Hcs1.
    destruct (Hreject fact w1 claim_v reasoning q Hclaim Hreason Hconf Hq)
      as [w' ->].
    by exists w'.
  - intros order topic w mb facts w0 claims st'
           Hmiss Hgather Hev Hassess Hcheck.
    rewrite analyze_miss, Hgather by done.
    destruct ev as [|e0 ev']; [done|].
    rewrite analyze_evidence_cases, Hassess, Hcheck.
    destruct (analyze_claims_ credibility_map (e0 :: ev') (take 3 facts) [] w0)
      as [[cs|] w2] eqn:Hloop; [|done].
    intros Hrun. assert (claims = cs) as -> by (destruct cs; by inversion Hrun).
    by eapply Hrange.
Qed.

(** A fact whose ["claim"] cannot be taken stops the loop, unless a fact
    before it did. *)
Lemma analyze_claims_stops credibility_map ev facts acc w :
  Exists (fun fact => is_ok (py_getitem fact "claim") = false) facts ->
  exists e w', analyze_claims_ credibility_map ev facts acc w = (Raise e, w').
Proof.
  intros Hex. revert acc w.
  induction Hex as [fact facts Hfact|fact facts _ IH]; intros acc w.
  - rewrite analyze_claims_cons, analyze_fact_cases. cbn zeta.
    destruct (py_getitem fact "claim"); [done|eauto].
  - rewrite analyze_claims_cons.
    destruct (analyze_fact_ credibility_map ev fact w) as [[c|e] w1];
      [apply IH|eauto].
Qed.

(** C1, as the code has it.  Provided the gatherer returns and the
    credibility assessment of its evidence returns, [analyze] returns a
    claim sequence whenever the first three facts of the verifier have
    the shape the prompt asks for, whether the explanations succeed or
    not; on a miss, when the language model raises during the fact check,
    or its response does not parse as JSON, [analyze] returns the empty
    sequence; and on a miss with evidence, when one of the first three
    facts of the verifier is not an object with the key ["claim"],
    [analyze] raises and nothing is stored. *)
Theorem analyze_fail_soft order topic w mb ev :
  gather search order topic = Ok ev ->
  is_ok (assess ev) = true ->
  ((forall facts w0, check_ topic ev w = (Ok facts, w0) ->
                     forallb (well_formed_fact float_of_str) (take 3 facts) = true) ->
   exists claims st', analyze_ order topic (w, mb) = (Ok claims, st'))
  /\ (truthy (memory_get topic mb).1 = false ->
      (exists e w0,
          generate_content (fact_check_prompt topic ev) w = (Raise e, w0))
      \/ (exists text w0,
             generate_content (fact_check_prompt topic ev) w = (Ok text, w0)
             /\ json_loads (clean text) = None) ->
      exists st', analyze_ order topic (w, mb) = (Ok [], st'))
  /\ (forall facts w0,
        truthy (memory_get topic mb).1 = false ->
        ev <> [] ->
        check_ topic ev w = (Ok facts, w0) ->
        Exists (fun fact => is_ok (py_getitem fact "claim") = false)
               (take 3 facts) ->
        exists e w',
          analyze_ order topic (w, mb)
          = (Raise e, (w', (memory_get topic mb).2))).
Proof.
  intros Hgather Hassess.
  destruct (assess ev) as [credibility_map|] eqn:Hcmap; [|done].
  split; [|split].
  - intros Hwf.
    destruct (truthy (memory_get topic mb).1) eqn:Hhit.
    { rewrite analyze_hit by done. eauto. }
    rewrite analyze_miss, Hgather by done.
    destruct ev as [|e0 ev]; [eauto|].
    rewrite analyze_evidence_cases, Hcmap.
    destruct (check_total W generate_content json_loads topic (e0 :: ev) w)
      as (facts & w0 & Hcheck).
    rewrite Hcheck.
    destruct (analyze_claims_total credibility_map (e0 :: ev) _ w0
                (Hwf _ _ Hcheck)) as (cs & w2 & ->).
    destruct cs; eauto.
  - intros Hmiss Hfail.
    rewrite analyze_miss, Hgather by done.
    destruct ev as [|e0 ev]; [eauto|].
    rewrite analyze_evidence_cases, Hcmap.
    assert (exists w0, check_ topic (e0 :: ev) w = (Ok [], w0)) as [w0 ->].
    { destruct Hfail as [(e & w0 & Hgen)|(text & w0 & Hgen & Hparse)].
      - exists w0. by eapply check_not_answered.
      - exists w0. by rewrite (check_answered _ _ _ _ _ _ _ _ Hgen), Hparse. }
    cbn. eauto.
  - intros facts w0 Hmiss Hev Hcheck Hbad.
    rewrite analyze_miss, Hgather by done.
    destruct ev as [|e0 ev]; [done|].
    rewrite analyze_evidence_cases, Hcmap, Hcheck.
    destruct (analyze_claims_stops credibility_map (e0 :: ev) _ [] w0 Hbad)
      as (e & w' & ->).
    eauto.
Qed.

End CoordinatorProperties.

(** ** CredibilityAssessorAgent *)

Lemma split_nonempty (sep : ascii) (u : string) : Str.split sep u <> [].
Proof.
  destruct u as [|c u]; [done|]. cbn [Str.split].
  destruct (Ascii.eqb c sep); [done|]. by destruct (Str.split sep u).
Qed.

(** A text without the separator is one segment; with it, two or more. *)
Lemma split_length_contains (u : string) :
  Str.contains "/" u = negb (length (Str.split "/" u) =? 1).
Proof.
  induction u as [|c u IH]; [done|].
  change (Str.contains "/" (String c u))
    with (String.prefix "/" (String c u) || Str.contains "/" u).
  rewrite prefix_cons, prefix_nil, IH. cbn [Str.split].
  pose proof (split_nonempty "/" u) as Hne.
  destruct (ascii_dec "/" c) as [<-|Hc].
  - rewrite Ascii.eqb_refl. cbn [length].
    destruct (Str.split "/" u); [done|]. done.
  - destruct (Ascii.eqb c "/") eqn:Heq.
    { apply Ascii.eqb_eq in Heq. by subst. }
    destruct (Str.split "/" u); [done|]. done.
Qed.

(** The domain extraction raises exactly on a URL with one ['/']. *)
Lemma domain_of_raises (u : string) :
  is_ok (domain_of u) = false <-> length (Str.split "/" u) = 2.
Proof.
  unfold domain_of. rewrite split_length_contains.
  pose proof (split_nonempty "/" u) as Hne.
  destruct (Str.split "/" u) as [|s0 [|s1 [|s2 l]]]; [done|..]; cbn; split; done.
Qed.

Lemma assess_loop_ok (ev : list Evidence) (m : gmap string string) :
  Forall (fun e => is_ok (domain_of (url e)) = true) ev ->
  exists m',
    assess_loop ev m = Ok m'
    /\ dom m' = dom m ∪ list_to_set (map url ev)
    /\ (forall u, u ∉ map url ev -> m' !! u = m !! u)
    /\ (forall e d, e ∈ ev -> domain_of (url e) = Ok d ->
                    m' !! url e = Some (credibility_of d)).
Proof.
  intros Hall. revert m. induction Hall as [|e ev He Hall IH]; intros m.
  { exists m. split; [done|]. split; [set_solver|]. split; [done|].
    intros e d Hin. by apply elem_of_nil in Hin. }
  cbn [assess_loop]. destruct (domain_of (url e)) as [d|] eqn:Hd; [|done].
  cbn [res_bind].
  destruct (IH (<[url e:=credibility_of d]> m)) as (m' & -> & Hdom & Hout & Hin).
  exists m'. split; [done|]. split; [|split].
  - rewrite Hdom, dom_insert_L. cbn [map list_to_set]. set_solver.
  - intros u Hu. cbn [map] in Hu. apply not_elem_of_cons in Hu as [Hne Hu].
    rewrite Hout by done. by rewrite lookup_insert_ne.
  - intros e' d' He' Hd'. apply elem_of_cons in He' as [->|He']; [|by eauto].
    destruct (decide (url e ∈ map url ev)) as [Hdup|Hfresh].
    + apply list_elem_of_fmap in Hdup as (e'' & Heq & He'').
      rewrite Heq. apply Hin; [done|]. rewrite <- Heq. congruence.
    + rewrite Hout by done. rewrite lookup_insert_eq. congruence.
Qed.

(** Where the domain extraction is defined on every URL, the assessment is
    the mapping the specification describes. *)
Lemma assess_ok (ev : list Evidence) :
  Forall (fun e => is_ok (domain_of (url e)) = true) ev ->
  exists m,
    assess ev = Ok m
    /\ dom m = list_to_set (map url ev)
    /\ (forall e d, e ∈ ev -> domain_of (url e) = Ok d ->
                    m !! url e = Some (credibility_of d)).
Proof.
  intros Hall. destruct (assess_loop_ok ev ∅ Hall) as (m & Hm & Hdom & _ & Hin).
  exists m. split; [done|]. split; [|done].
  rewrite Hdom, dom_empty_L. set_solver.
Qed.

(** C2.  [assess] is not total: on the evidence whose URL is
    ["example.com/page"] the URL holds a ['/'], its split has two
    segments, and the subscript [[2]] raises [IndexError]; no mapping is
    returned. *)
Theorem assess_raises_on_single_slash :
  assess [mkEvidence "Example" "example.com/page" "A page"] = Raise IndexError.
Proof. reflexivity. Qed.

(** ** The memory bank and the cache flag of the response *)

Section CacheProperties.

Variable W : Type.
Variable generate_content : string -> M W string.
Variable datetime_now : W -> Z * W.
Variable json_loads : string -> option JSON.
Variable float_of_str : string -> option Q.
Variable repr : JSON -> string.

Local Abbreviation analyze_mb :=
  (analyze W generate_content datetime_now json_loads float_of_str repr
           MemoryBank.t MemoryBank.get MemoryBank.store).
Local Abbreviation reachable_ :=
  (reachable W generate_content datetime_now json_loads float_of_str repr).


Lemma get_entries topic mb :
  MemoryBank.entries (MemoryBank.get topic mb).2 = MemoryBank.entries mb.
Proof.
  unfold MemoryBank.get. by destruct (MemoryBank.entries mb !! topic).
Qed.

Lemma get_result topic mb :
  (MemoryBank.get topic mb).1 = MemoryBank.entries mb !! topic.
Proof.
  unfold MemoryBank.get. by destruct (MemoryBank.entries mb !! topic).
Qed.

Lemma reachable_stored_uncached mb : reachable_ mb -> stored_uncached mb.
Proof.
  induction 1 as [|search order topic w mb Hmb IH].
  { intros topic claims Hlook. cbn [MemoryBank.empty MemoryBank.entries] in Hlook.
    by rewrite lookup_empty in Hlook. }
  destruct (analyze_mb search order topic (w, mb)) as [r [w' mb']] eqn:Hrun.
  cbn [snd].
  apply analyze_memory_effect in Hrun
    as [->|(claims & _ & Hne & Hunc & ->)].
  - intros t cs. rewrite get_entries. apply IH.
  - intros t cs. cbn [MemoryBank.store MemoryBank.entries].
    rewrite get_entries.
    destruct (decide (topic = t)) as [->|Hneq].
    + rewrite lookup_insert_eq. by intros [= <-].
    + rewrite lookup_insert_ne by done. apply IH.
Qed.

Lemma uncached_response claims :
  Forall (fun c => cached c = false) claims -> response_cached claims = false.
Proof.
  intros Hall. unfold response_cached. destruct claims as [|c cs]; [done|].
  apply not_true_is_false. intros Hex.
  apply existsb_exists in Hex as (x & Hin & Hx).
  rewrite Forall_forall in Hall. apply list_elem_of_In in Hin.
  apply Hall in Hin. congruence.
Qed.

(** C6.  On a hit, [analyze] returns the sequence stored under the
    topic, as it is stored, and changes neither the language model state
    nor the stored entries.  The claims of a stored sequence carry
    [cached = false], as they did when [analyze] built them, so the
    flag [api.py] derives from them is false on every hit. *)
Theorem cache_hit_returns_stored search order topic w mb claims :
  reachable_ mb ->
  MemoryBank.entries mb !! topic = Some claims ->
  analyze_mb search order topic (w, mb)
  = (Ok claims, (w, (MemoryBank.get topic mb).2))
  /\ MemoryBank.entries (MemoryBank.get topic mb).2 = MemoryBank.entries mb
  /\ Forall (fun c => cached c = false) claims
  /\ response_cached claims = false.
Proof.
  intros Hmb Hlook.
  destruct (reachable_stored_uncached mb Hmb topic claims Hlook) as [Hne Hunc].
  split; [|split; [apply get_entries|split; [done|by apply uncached_response]]].
  rewrite analyze_hit; rewrite get_result, Hlook; [done|].
  by destruct claims.
Qed.

(** With the memory bank of the specification, a call that finds no
    evidence leaves the stored entries as they were. *)
Lemma no_evidence_entries_unchanged search order topic w mb :
  MemoryBank.entries mb !! topic = None ->
  gather search order topic = Ok [] ->
  MemoryBank.entries (analyze_mb search order topic (w, mb)).2.2
  = MemoryBank.entries mb.
Proof.
  intros Hlook Hgather.
  rewrite analyze_miss, Hgather by (by rewrite get_result, Hlook).
  apply get_entries.
Qed.

End CacheProperties.

(** ** The pipeline on the sample requests *)

Example split_url :
  Str.split "/" "https://www.bbc.com/news/x"
  = ["https:"; ""; "www.bbc.com"; "news"; "x"].
Proof. reflexivity. Qed.

Example credibility_examples :
  assess Sample.evidence_found = Ok Sample.credibility.
Proof. reflexivity. Qed.

Example gather_sample :
  gather Sample.search [2; 0; 1] Sample.topic = Ok Sample.evidence_found.
Proof. vm_compute. reflexivity. Qed.

Example first_request_two_facts :
  (Sample.first_request
     [ Ok (Sample.fenced Sample.text_two_facts); Ok "Tracked."; Ok "Touched." ]).1
  = Ok [ Sample.claim_staged "Tracked." 1700000000;
         Sample.claim_flag "Touched." 1700000001 ].
Proof. vm_compute. reflexivity. Qed.

Example first_request_four_facts :
  Sample.first_request
    [ Ok (Sample.fenced Sample.text_four_facts);
      Ok "First."; Ok "Second."; Ok "Third."; Ok "Fourth." ]
  = (Ok [ Sample.claim_staged "First." 1700000000;
          Sample.claim_flag "Second." 1700000001;
          Sample.claim_staged "Third." 1700000002 ],
     (Scripted.mkWorld [Ok "Fourth."] 1700000003,
      MemoryBank.mk
        {[ Sample.topic := [ Sample.claim_staged "First." 1700000000;
                             Sample.claim_flag "Second." 1700000001;
                             Sample.claim_staged "Third." 1700000002 ] ]}
        0 1)).
Proof. vm_compute. reflexivity. Qed.

Example check_wraps_object :
  Sample.check (Sample.world [Ok Sample.text_staged])
  = (Ok [Sample.fact_staged], Sample.world []).
Proof. reflexivity. Qed.

Example check_drops_number :
  Sample.check (Sample.world [Ok Sample.text_number])
  = (Ok [], Sample.world []).
Proof. reflexivity. Qed.

(** [float] on the ints around the largest binary64 number. *)
Example float_of_large_int :
  py_float Scripted.float_of_str (JNum (inject_Z (2 ^ 1024 - 2 ^ 970 - 1)))
  = Ok (inject_Z (2 ^ 1024 - 2 ^ 970 - 1))
  /\ py_float Scripted.float_of_str (JNum (inject_Z (2 ^ 1024 - 2 ^ 970)))
     = Raise OverflowError
  /\ py_float Scripted.float_of_str (JNum (inject_Z (- 10 ^ 400)))
     = Raise OverflowError.
Proof. split; [|split]; vm_compute; reflexivity. Qed.

(** The verifier gives the int [10 ** 400] as confidence: [analyze] raises
    [OverflowError], after the explanation was asked for. *)
Example analyze_raises_on_huge_confidence :
  Scenario.first_request [Ok (Sample.fenced Scenario.text_huge); Ok "Tracked."]
  = (Raise OverflowError, (Sample.world [], MemoryBank.mk ∅ 0 1)).
Proof. vm_compute. reflexivity. Qed.

(** The credibility assessment raises: [analyze] raises [IndexError], and
    the fact check has called the language model all the same. *)
Example analyze_raises_on_single_slash :
  Sample.analyze Scenario.search_relative [0; 1; 2] Sample.topic
    (Sample.world [Ok "[]"], MemoryBank.empty)
  = (Raise IndexError, (Sample.world [], MemoryBank.mk ∅ 0 1)).
Proof. vm_compute. reflexivity. Qed.

(** The verifier returns a fact without ["claim"]: [analyze] raises. *)
Lemma analyze_raises_on_fact_without_claim :
  (Sample.first_request [Ok (Sample.fenced Sample.text_no_claim)]).1
  = Raise (KeyError "claim").
Proof. vm_compute. reflexivity. Qed.

(** The verifier gives the confidence 1.5: no claim with the confidence 1
    comes back, [analyze] raises. *)
Lemma confidence_above_one_not_clamped :
  (Sample.first_request
     [Ok (Sample.fenced Sample.text_too_sure); Ok "Tracked."]).1
  = Raise ValidationError
  /\ ~ confidence_clamped Scripted.float_of_str [Sample.fact_too_sure]
         (Sample.first_request
            [Ok (Sample.fenced Sample.text_too_sure); Ok "Tracked."]).1.
Proof.
  assert ((Sample.first_request
             [Ok (Sample.fenced Sample.text_too_sure); Ok "Tracked."]).1
          = Raise ValidationError) as Hrun by (vm_compute; reflexivity).
  split; [exact Hrun|]. rewrite Hrun. by intros (claims & [=] & _).
Qed.

(** The verifier gives [null] as the reasoning of its second fact.  When
    the explainer answers, both claims come back; when it fails at the
    second fact, [analyze] raises and the first claim is lost with it. *)
Lemma explainer_failure_loses_claims :
  (Scenario.first_request
     [ Ok (Sample.fenced Scenario.text_unexplained);
       Ok "Tracked."; Ok "Touched." ]).1
  = Ok [ Sample.claim_staged "Tracked." 1700000000;
         Sample.claim_flag "Touched." 1700000001 ]
  /\ (Scenario.first_request
        [ Ok (Sample.fenced Scenario.text_unexplained);
          Ok "Tracked."; Raise (CollaboratorError "quota") ]).1
     = Raise ValidationError.
Proof. split; vm_compute; reflexivity. Qed.

Lemma gather_merges_in_query_order_witness :
  String.length Scenario.long_body = 210
  /\ String.length Scenario.long_snippet = 200
  /\ gather Scenario.search_archive [2; 0; 1] Sample.topic
     = Ok [ mkEvidence "The flight log" "https://archive.example.org/log"
                       Scenario.long_snippet;
            mkEvidence "What they hide" "https://my.wordpress.com/post"
                       "A personal page";
            mkEvidence "Apollo 11, once more" "https://www.bbc.com/news/x"
                       "The same page under another title" ].
Proof.
  split; [reflexivity|]. split; [reflexivity|].
  refine (eq_trans
            (proj1 (proj2 (gather_merges_in_query_order
                             Scenario.search_archive [2; 0; 1] Sample.topic
                             [Scenario.archive; Sample.press]
                             [Sample.bbc_again]
                             [Scenario.archive; Sample.no_link]
                             eq_refl eq_refl eq_refl)))
            _).
  vm_compute. reflexivity.
Defined.

Lemma check_absorbs_failures_witness :
  Sample.check (Sample.world [Raise (CollaboratorError "quota")])
  = (Ok [], Sample.world [])
  /\ Sample.check (Sample.world [Ok "I cannot answer that."])
     = (Ok [], Sample.world [])
  /\ Sample.check (Sample.world [Ok (Sample.fenced Sample.text_two_facts)])
     = (Ok [Sample.fact_staged; Sample.fact_flag], Sample.world [])
  /\ clean (fence_json +:+ " [] " +:+ fence) = Str.strip " [] ".
Proof.
  unfold Sample.check. split; [|split; [|split]].
  - destruct (check_absorbs_failures Scripted.World Scripted.generate_content
                Sample.json_loads Sample.topic Sample.evidence_found
                (Sample.world [Raise (CollaboratorError "quota")]))
      as (_ & Herr & _).
    apply (Herr (CollaboratorError "quota")). reflexivity.
  - destruct (check_absorbs_failures Scripted.World Scripted.generate_content
                Sample.json_loads Sample.topic Sample.evidence_found
                (Sample.world [Ok "I cannot answer that."]))
      as (_ & _ & Hparse & _).
    apply (Hparse "I cannot answer that."); reflexivity.
  - destruct (check_absorbs_failures Scripted.World Scripted.generate_content
                Sample.json_loads Sample.topic Sample.evidence_found
                (Sample.world [Ok (Sample.fenced Sample.text_two_facts)]))
      as (_ & _ & _ & Harr & _).
    apply (Harr (Sample.fenced Sample.text_two_facts)); reflexivity.
  - destruct (check_absorbs_failures Scripted.World Scripted.generate_content
                Sample.json_loads Sample.topic Sample.evidence_found
                (Sample.world []))
      as (_ & _ & _ & _ & Hfence).
    apply Hfence. reflexivity.
Defined.

Lemma check_drops_value_without_length_witness :
  is_list (JNum 5) = false
  /\ Sample.check (Sample.world [Ok "5"]) = (Ok [], Sample.world [])
  /\ Sample.check (Sample.world [Ok "5"]) <> (Ok [JNum 5], Sample.world []).
Proof.
  apply (check_drops_value_without_length Scripted.World
           Scripted.generate_content Sample.json_loads Sample.topic
           Sample.evidence_found (Sample.world [Ok "5"]) "5");
    reflexivity.
Defined.

Lemma explainer_failure_is_local_witness :
  (Sample.first_request
     [ Ok (Sample.fenced Sample.text_two_facts);
       Raise (CollaboratorError "quota");
       Ok "Touched." ]).1
  = Ok [ Sample.claim_staged "Observatories tracked the flight" 1700000000;
         Sample.claim_flag "Touched." 1700000001 ]
  /\ Scenario.first_request
       [ Ok (Sample.fenced Scenario.text_unexplained);
         Ok "Tracked.";
         Raise (CollaboratorError "quota") ]
     = (Raise ValidationError,
        (Scripted.mkWorld [] 1700000002, MemoryBank.mk ∅ 0 1)).
Proof.
  split; cycle 1.
  { refine
      (proj2 (proj2 (explainer_failure_is_local Scripted.World
                       Scripted.generate_content Scripted.datetime_now
                       Scenario.json_loads Scripted.float_of_str Scripted.repr
                       MemoryBank.t MemoryBank.get MemoryBank.store
                       Sample.search))
         [2; 0; 1] Sample.topic
         (Sample.world [ Ok (Sample.fenced Scenario.text_unexplained);
                         Ok "Tracked.";
                         Raise (CollaboratorError "quota") ])
         MemoryBank.empty Sample.evidence_found Sample.credibility
         [Sample.fact_staged; Scenario.fact_unexplained]
         (Sample.world [Ok "Tracked."; Raise (CollaboratorError "quota")])
         [Sample.fact_staged] Scenario.fact_unexplained []
         [Sample.claim_staged "Tracked." 1700000000]
         (Scripted.mkWorld [Raise (CollaboratorError "quota")] 1700000001)
         (JStr "The flag waved in the wind") JNull 0.8%Q
         (CollaboratorError "quota") (Scripted.mkWorld [] 1700000001)
         _ _ _ _ _ _ _ _ _ _ _ _);
      try reflexivity; discriminate. }
  refine
    (f_equal fst
       (proj1 (proj2 (explainer_failure_is_local Scripted.World
                 Scripted.generate_content Scripted.datetime_now
                 Sample.json_loads Scripted.float_of_str Scripted.repr
                 MemoryBank.t MemoryBank.get MemoryBank.store Sample.search))
          [2; 0; 1] Sample.topic
          (Sample.world [ Ok (Sample.fenced Sample.text_two_facts);
                          Raise (CollaboratorError "quota");
                          Ok "Touched." ])
          MemoryBank.empty Sample.evidence_found Sample.credibility
          [Sample.fact_staged; Sample.fact_flag]
          (Sample.world [Raise (CollaboratorError "quota"); Ok "Touched."])
          [] Sample.fact_staged [Sample.fact_flag]
          [] (Sample.world [Raise (CollaboratorError "quota"); Ok "Touched."])
          "The landing was staged" "Observatories tracked the flight" 0.9%Q
          (CollaboratorError "quota") (Sample.world [Ok "Touched."])
          [Sample.claim_flag "Touched." 1700000001]
          (Scripted.mkWorld [] 1700000002)
          _ _ _ _ _ _ _ _ _ _ _ _ _));
    try reflexivity.
  discriminate.
Defined.

Lemma analyze_builds_claims_witness :
  (exists claims st',
      Sample.first_request
        [Ok (Sample.fenced Sample.text_two_facts); Ok "Tracked."; Ok "Touched."]
      = (Ok claims, st'))
  /\ Forall2 (claim_of_fact Scripted.float_of_str Sample.credibility
                            Sample.evidence_found)
             [Sample.fact_staged; Sample.fact_flag]
             [ Sample.claim_staged "Tracked." 1700000000;
               Sample.claim_flag "Touched." 1700000001 ].
Proof.
  destruct (analyze_builds_claims Scripted.World Scripted.generate_content
              Scripted.datetime_now Sample.json_loads Scripted.float_of_str
              Scripted.repr MemoryBank.t MemoryBank.get MemoryBank.store
              Sample.search [2; 0; 1] Sample.topic
              (Sample.world [ Ok (Sample.fenced Sample.text_two_facts);
                              Ok "Tracked."; Ok "Touched." ])
              MemoryBank.empty Sample.evidence_found Sample.credibility
              [Sample.fact_staged; Sample.fact_flag]
              (Sample.world [Ok "Tracked."; Ok "Touched."]))
    as [Hclaims Htotal]; try reflexivity; [discriminate|].
  split.
  - apply Htotal. reflexivity.
  - refine (proj1 (Hclaims _ _ _)). reflexivity.
Defined.

Lemma confidence_validated_not_clamped_witness :
  (exists w',
      Sample.analyze_fact Sample.credibility Sample.evidence_found
        Sample.fact_too_sure (Sample.world [Ok "Tracked."])
      = (Raise ValidationError, w'))
  /\ Forall2 (fun fact c =>
                verifier_confidence Scripted.float_of_str fact = Ok (confidence c)
                /\ in_unit_interval (confidence c) = true)
             [Sample.fact_staged; Sample.fact_flag]
             [ Sample.claim_staged "Tracked." 1700000000;
               Sample.claim_flag "Touched." 1700000001 ]
  /\ (exists w',
        Sample.first_request
          [Ok (Sample.fenced Sample.text_too_sure); Ok "Tracked."]
        = (Raise ValidationError, (w', MemoryBank.mk ∅ 0 1))).
Proof.
  destruct (confidence_validated_not_clamped Scripted.World
              Scripted.generate_content Scripted.datetime_now
              Sample.json_loads Scripted.float_of_str Scripted.repr
              MemoryBank.t MemoryBank.get MemoryBank.store Sample.search
              Sample.credibility Sample.evidence_found)
    as (Hreject & Hrange & Hanalyze & _).
  split; [|split]; cycle 2.
  { apply (Hanalyze [2; 0; 1] Sample.topic
             (Sample.world [Ok (Sample.fenced Sample.text_too_sure);
                            Ok "Tracked."])
             MemoryBank.empty [Sample.fact_too_sure]
             (Sample.world [Ok "Tracked."])
             [] Sample.fact_too_sure [] [] (Sample.world [Ok "Tracked."])
             (JStr "The landing was staged") (JStr "") 1.5%Q);
      try reflexivity; discriminate. }
  - apply (Hreject Sample.fact_too_sure (Sample.world [Ok "Tracked."])
             (JStr "The landing was staged") (JStr "") 1.5%Q);
      reflexivity.
  - apply (Hrange [Sample.fact_staged; Sample.fact_flag]
             (Sample.world [Ok "Tracked."; Ok "Touched."]) _
             (Scripted.mkWorld [] 1700000002)).
    reflexivity.
Defined.

Lemma analyze_fail_soft_witness :
  (exists claims st',
      Sample.first_request
        [ Ok (Sample.fenced Sample.text_two_facts);
          Raise (CollaboratorError "quota"); Raise (CollaboratorError "quota") ]
      = (Ok claims, st'))
  /\ (exists st',
        Sample.first_request [Raise (CollaboratorError "quota")] = (Ok [], st'))
  /\ (exists st',
        Sample.first_request [Ok "I cannot answer that."] = (Ok [], st'))
  /\ (exists e w',
        Sample.first_request [Ok (Sample.fenced Sample.text_no_claim)]
        = (Raise e, (w', MemoryBank.mk ∅ 0 1))).
Proof.
  split; [|split; [|split]]; cycle 3.
  { refine (proj2 (proj2 (analyze_fail_soft Scripted.World
                     Scripted.generate_content
                     Scripted.datetime_now Sample.json_loads
                     Scripted.float_of_str Scripted.repr MemoryBank.t
                     MemoryBank.get MemoryBank.store Sample.search
                     [2; 0; 1] Sample.topic
                     (Sample.world [Ok (Sample.fenced Sample.text_no_claim)])
                     MemoryBank.empty
                     Sample.evidence_found _ _))
              [Sample.fact_no_claim] (Sample.world []) _ _ _ _);
      try reflexivity; [discriminate|].
    apply Exists_cons_hd. reflexivity. }
  - refine (proj1 (analyze_fail_soft Scripted.World Scripted.generate_content
                     Scripted.datetime_now Sample.json_loads
                     Scripted.float_of_str Scripted.repr MemoryBank.t
                     MemoryBank.get MemoryBank.store Sample.search
                     [2; 0; 1] Sample.topic _ MemoryBank.empty
                     Sample.evidence_found _ _) _); try reflexivity.
    intros facts w0 Hcheck. vm_compute in Hcheck.
    injection Hcheck as <- _. reflexivity.
  - refine (proj1 (proj2 (analyze_fail_soft Scripted.World
                     Scripted.generate_content
                     Scripted.datetime_now Sample.json_loads
                     Scripted.float_of_str Scripted.repr MemoryBank.t
                     MemoryBank.get MemoryBank.store Sample.search
                     [2; 0; 1] Sample.topic _ MemoryBank.empty
                     Sample.evidence_found _ _)) _ _); try reflexivity.
    left. eexists _, _. reflexivity.
  - refine (proj1 (proj2 (analyze_fail_soft Scripted.World
                     Scripted.generate_content
                     Scripted.datetime_now Sample.json_loads
                     Scripted.float_of_str Scripted.repr MemoryBank.t
                     MemoryBank.get MemoryBank.store Sample.search
                     [2; 0; 1] Sample.topic _ MemoryBank.empty
                     Sample.evidence_found _ _)) _ _); try reflexivity.
    right. eexists _, _. split; reflexivity.
Defined.

Lemma analyze_no_evidence_no_store_witness :
  Sample.analyze Sample.search_nothing [0; 1; 2] Sample.topic
    (Sample.world [], MemoryBank.empty)
  = (Ok [], (Sample.world [], MemoryBank.mk ∅ 0 1)).
Proof.
  apply (proj1 (analyze_no_evidence_no_store Scripted.World
                  Scripted.generate_content Scripted.datetime_now
                  Sample.json_loads Scripted.float_of_str Scripted.repr
                  MemoryBank.t MemoryBank.get MemoryBank.store
                  Sample.search_nothing [0; 1; 2] Sample.topic
                  (Sample.world []) MemoryBank.empty));
    reflexivity.
Defined.

Lemma cache_hit_returns_stored_witness :
  let stored := [ Sample.claim_staged "Tracked." 1700000000;
                  Sample.claim_flag "Touched." 1700000001 ] in
  let mb := (Sample.first_request
               [ Ok (Sample.fenced Sample.text_two_facts);
                 Ok "Tracked."; Ok "Touched." ]).2.2 in
  (Sample.analyze Sample.search [0; 1; 2] Sample.topic (Sample.world [], mb)).1
  = Ok stored
  /\ response_cached stored = false.
Proof.
  intros stored mb.
  destruct (cache_hit_returns_stored Scripted.World Scripted.generate_content
              Scripted.datetime_now Sample.json_loads Scripted.float_of_str
              Scripted.repr Sample.search [0; 1; 2] Sample.topic
              (Sample.world []) mb stored)
    as (Hrun & _ & _ & Hflag).
  - exact (reachable_analyze Scripted.World Scripted.generate_content
             Scripted.datetime_now Sample.json_loads Scripted.float_of_str
             Scripted.repr Sample.search [2; 0; 1] Sample.topic
             (Sample.world [ Ok (Sample.fenced Sample.text_two_facts);
                             Ok "Tracked."; Ok "Touched." ])
             MemoryBank.empty
             (reachable_empty Scripted.World Scripted.generate_content
                Scripted.datetime_now Sample.json_loads Scripted.float_of_str
                Scripted.repr)).
  - reflexivity.
  - split; [|exact Hflag]. unfold Sample.analyze. by rewrite Hrun.
Defined.

(** ** Further properties of EvidenceGathererAgent.gather *)

Lemma first_raised_elem {A} (order : list nat) (outcomes : list (Res A)) e :
  first_raised order outcomes = Some e -> Raise e ∈ outcomes.
Proof.
  induction order as [|i order IH]; cbn [first_raised]; [done|].
  destruct (outcomes !! i) as [[a|e']|] eqn:Hi; try done.
  intros [= ->]. by apply list_elem_of_lookup_2 in Hi.
Qed.

Lemma gather_ok_inv search order topic evs :
  gather search order topic = Ok evs ->
  exists r1 r2 r3,
    search topic 3 = Ok r1
    /\ search (topic +:+ " fact check") 3 = Ok r2
    /\ search (topic +:+ " misinformation analysis") 3 = Ok r3
    /\ evs = merged_evidence (r1 ++ r2 ++ r3).
Proof.
  unfold gather.
  change (queries topic)
    with [topic; topic +:+ " fact check"; topic +:+ " misinformation analysis"].
  cbn [map]. unfold asyncio_gather.
  destruct (search topic 3) as [r1|e1];
    destruct (search (topic +:+ " fact check") 3) as [r2|e2];
    destruct (search (topic +:+ " misinformation analysis") 3) as [r3|e3];
    try (destruct (first_raised order _); discriminate).
  rewrite first_raised_all_ok by (repeat constructor).
  cbn [collect res_bind]. rewrite merge_three. intros [= <-]. by eexists _, _, _.
Qed.

Lemma gather_raise_inv search order topic e :
  gather search order topic = Raise e ->
  search topic 3 = Raise e
  \/ search (topic +:+ " fact check") 3 = Raise e
  \/ search (topic +:+ " misinformation analysis") 3 = Raise e.
Proof.
  unfold gather.
  change (queries topic)
    with [topic; topic +:+ " fact check"; topic +:+ " misinformation analysis"].
  cbn [map]. unfold asyncio_gather.
  destruct (first_raised order _) as [e'|] eqn:Hfirst.
  - intros [= ->]. apply first_raised_elem in Hfirst.
    rewrite !elem_of_cons in Hfirst.
    destruct Hfirst as [<- | [<- | [<- | Hnil]]]; eauto.
    by apply elem_of_nil in Hnil.
  - destruct (search topic 3) as [r1|e1]; [|intros [= ->]; eauto].
    destruct (search (topic +:+ " fact check") 3) as [r2|e2];
      [|intros [= ->]; eauto].
    destruct (search (topic +:+ " misinformation analysis") 3) as [r3|e3];
      [|intros [= ->]; eauto].
    discriminate.
Qed.

(** X1.  [gather] returns exactly when the three searches return; when it
    raises, the exception is one that a search raised, whatever the order
    in which the searches complete. *)
Theorem gather_returns_iff_searches_return search order topic :
  is_ok (gather search order topic)
  = is_ok (search topic 3)
    && is_ok (search (topic +:+ " fact check") 3)
    && is_ok (search (topic +:+ " misinformation analysis") 3)
  /\ (forall e,
        gather search order topic = Raise e ->
        search topic 3 = Raise e
        \/ search (topic +:+ " fact check") 3 = Raise e
        \/ search (topic +:+ " misinformation analysis") 3 = Raise e).
Proof.
  split; [|apply gather_raise_inv].
  destruct (gather search order topic) as [evs|e] eqn:Hg.
  - apply gather_ok_inv in Hg as (r1 & r2 & r3 & H1 & H2 & H3 & _).
    by rewrite H1, H2, H3.
  - apply gather_raise_inv in Hg as [-> | [-> | ->]]; cbn [is_ok];
      by rewrite ?andb_false_r.
Qed.

Lemma gather_returns_iff_searches_return_witness :
  Scenario.search_down "moon landing" 3 = Raise (CollaboratorError "timeout")
  \/ Scenario.search_down ("moon landing" +:+ " fact check") 3
     = Raise (CollaboratorError "timeout")
  \/ Scenario.search_down ("moon landing" +:+ " misinformation analysis") 3
     = Raise (CollaboratorError "timeout").
Proof.
  apply (proj2 (gather_returns_iff_searches_return
                  Scenario.search_down [2; 0; 1] "moon landing")).
  reflexivity.
Defined.

Lemma first_by_url_elem (l : list SearchResult) (r : SearchResult) :
  r ∈ first_by_url l -> r ∈ l.
Proof.
  revert r. induction l as [|x l IH]; intros r; cbn [first_by_url]; [done|].
  rewrite !elem_of_cons. intros [->|Hin]; [by left|right].
  apply filter_bool_In in Hin as [Hin _]. by apply IH.
Qed.

(** Every result has a representative with its URL among the results kept. *)
Lemma first_by_url_covers (l : list SearchResult) (r : SearchResult) :
  r ∈ l -> exists r', r' ∈ first_by_url l /\ r_href r' = r_href r.
Proof.
  induction l as [|x l IH]; [by intros ?%elem_of_nil|].
  rewrite elem_of_cons. cbn [first_by_url]. intros [->|Hin].
  { exists x. split; [by left|done]. }
  destruct (IH Hin) as (r' & Hr' & Heq).
  destruct (same_url x r') eqn:Hsame.
  - exists x. split; [by left|].
    apply bool_decide_eq_true in Hsame. congruence.
  - exists r'. split; [|done]. right.
    apply list_elem_of_In, filter_In. split; [by apply list_elem_of_In|].
    by rewrite Hsame.
Qed.

Lemma three_queries_elem search topic r1 r2 r3 (r : SearchResult) :
  search topic 3 = Ok r1 ->
  search (topic +:+ " fact check") 3 = Ok r2 ->
  search (topic +:+ " misinformation analysis") 3 = Ok r3 ->
  r ∈ r1 ++ r2 ++ r3 <->
  exists q rs, q ∈ queries topic /\ search q 3 = Ok rs /\ r ∈ rs.
Proof.
  intros H1 H2 H3.
  change (queries topic)
    with [topic; topic +:+ " fact check"; topic +:+ " misinformation analysis"].
  rewrite !elem_of_app. split.
  - intros [Hr|[Hr|Hr]]; eexists _, _; (split; [|split; [|exact Hr]]);
      [| exact H1 | | exact H2 | | exact H3]; set_solver.
  - intros (q & rs & Hq & Hs & Hr). rewrite !elem_of_cons in Hq.
    destruct Hq as [-> | [-> | [-> | Hq]]]; [| | |by apply elem_of_nil in Hq];
      rewrite Hs in *; simplify_eq; eauto.
Qed.

(** X2.  [gather] invents nothing: every evidence it returns has a URL
    that is not empty and is built from a result that one of the three
    searches returned under this URL, with the title of the result (or
    "Unknown") and the first 200 characters of its body (or ""). *)
Theorem gather_evidence_from_results search order topic evs :
  gather search order topic = Ok evs ->
  Forall (fun e =>
            url e <> ""
            /\ exists q rs r,
                 q ∈ queries topic /\ search q 3 = Ok rs /\ r ∈ rs
                 /\ r_href r = Some (url e)
                 /\ title e = default "Unknown" (r_title r)
                 /\ snippet e = Str.take 200 (default "" (r_body r)))
         evs.
Proof.
  intros Hg. apply gather_ok_inv in Hg as (r1 & r2 & r3 & H1 & H2 & H3 & Hevs).
  subst evs. apply Forall_forall. intros e He. unfold merged_evidence in He.
  apply (fun H => elem_of_sublist _ _ _ H (sublist_take _ _)) in He.
  apply list_elem_of_fmap in He as (r & -> & Hr).
  apply first_by_url_elem, filter_bool_In in Hr as [Hr Hurl].
  unfold has_url in Hurl. unfold to_evidence. rewrite <- take_substring.
  cbn [url title snippet].
  destruct (r_href r) as [u|] eqn:Hu; [|done].
  change (default "" (Some u)) with u. split.
  - intros ->. done.
  - apply (three_queries_elem search topic r1 r2 r3 r H1 H2 H3) in Hr
      as (q & rs & Hq & Hs & Hin).
    by exists q, rs, r.
Qed.

Lemma gather_evidence_from_results_witness :
  Forall (fun e => url e <> "") Sample.evidence_found.
Proof.
  eapply Forall_impl;
    [apply (gather_evidence_from_results Sample.search [2; 0; 1] Sample.topic);
     reflexivity|].
  intros e [He _]. exact He.
Defined.

(** X3.  When [gather] returns fewer than 8 items, nothing was cut: every
    URL that is not empty and that a search returned is the URL of an
    evidence. *)
Theorem gather_complete_below_limit search order topic evs :
  gather search order topic = Ok evs ->
  length evs < 8 ->
  forall q rs r u,
    q ∈ queries topic -> search q 3 = Ok rs -> r ∈ rs ->
    r_href r = Some u -> u <> "" ->
    u ∈ map url evs.
Proof.
  intros Hg Hlen q rs r u Hq Hs Hr Hu Hne.
  apply gather_ok_inv in Hg as (r1 & r2 & r3 & H1 & H2 & H3 & Hevs).
  subst evs. unfold merged_evidence in *. rewrite length_take in Hlen.
  rewrite take_ge by lia.
  assert (r ∈ List.filter has_url (r1 ++ r2 ++ r3)) as Hin.
  { apply list_elem_of_In, filter_In. split.
    - apply list_elem_of_In.
      apply (three_queries_elem search topic r1 r2 r3 r H1 H2 H3). eauto.
    - unfold has_url. rewrite Hu. by destruct u. }
  apply first_by_url_covers in Hin as (r' & Hr' & Heq).
  apply list_elem_of_fmap. exists (to_evidence r'). split.
  - cbn. by rewrite Heq, Hu.
  - apply list_elem_of_fmap. eauto.
Qed.

Lemma gather_complete_below_limit_witness :
  "https://example.org/x" ∈ map url Sample.evidence_found.
Proof.
  apply (gather_complete_below_limit Sample.search [2; 0; 1] Sample.topic
           Sample.evidence_found eq_refl)
    with (q := "moon landing fact check")
         (rs := [Sample.bbc_again; Sample.org]) (r := Sample.org).
  - cbn. lia.
  - set_solver.
  - reflexivity.
  - set_solver.
  - reflexivity.
  - discriminate.
Defined.

(** ** Further properties of CredibilityAssessorAgent.assess *)

Lemma assess_loop_is_ok (ev : list Evidence) (m : gmap string string) :
  is_ok (assess_loop ev m)
  = forallb (fun e => is_ok (domain_of (url e))) ev.
Proof.
  revert m. induction ev as [|e ev IH]; intros m; [done|].
  cbn [assess_loop forallb].
  destruct (domain_of (url e)) as [d|]; [|done]. cbn [res_bind is_ok].
  by rewrite IH.
Qed.

Lemma forallb_Forall {A} (f : A -> bool) (l : list A) :
  forallb f l = true <-> Forall (fun x => f x = true) l.
Proof.
  induction l as [|x l IH]; cbn [forallb]; [by split; [constructor|]|].
  rewrite andb_true_iff, Forall_cons, IH. done.
Qed.

(** X4.  [assess] returns exactly when no URL of the evidence holds one
    single ['/']; a URL that does makes it raise, wherever the item stands
    in the sequence. *)
Theorem assess_returns_iff_no_single_slash (ev : list Evidence) :
  is_ok (assess ev) = true
  <-> Forall (fun e => length (Str.split "/" (url e)) <> 2) ev.
Proof.
  unfold assess. rewrite assess_loop_is_ok, forallb_Forall, !Forall_forall.
  split; intros Hall e He; specialize (Hall e He).
  - intros Hlen. apply domain_of_raises in Hlen. congruence.
  - destruct (is_ok (domain_of (url e))) eqn:Hok; [done|].
    by apply domain_of_raises in Hok.
Qed.

Lemma credibility_of_label (d : string) : credibility_of d ∈ labels.
Proof.
  unfold credibility_of, labels.
  destruct (any_in trusted d); [set_solver|].
  destruct (any_in untrusted d); set_solver.
Qed.

(** X5.  When [assess] returns, the mapping has exactly the URLs of the
    evidence as keys (so no more entries than items), every value is one of
    "high", "low" and "medium", and the value of a URL is the class of its
    domain, also when the URL occurs more than once. *)
Theorem assess_mapping (ev : list Evidence) (m : gmap string string) :
  assess ev = Ok m ->
  dom m = list_to_set (map url ev)
  /\ size m <= length ev
  /\ (forall u c, m !! u = Some c -> c ∈ labels)
  /\ (forall e, e ∈ ev ->
                exists d, domain_of (url e) = Ok d
                          /\ m !! url e = Some (credibility_of d)).
Proof.
  intros Hm.
  assert (Forall (fun e => is_ok (domain_of (url e)) = true) ev) as Hall.
  { apply Forall_forall. intros e He.
    assert (is_ok (assess ev) = true) as Hok by (by rewrite Hm).
    unfold assess in Hok. rewrite assess_loop_is_ok, forallb_Forall in Hok.
    rewrite Forall_forall in Hok. by apply Hok. }
  destruct (assess_ok ev Hall) as (m' & Hm' & Hdom & Hval).
  assert (m' = m) as -> by congruence.
  assert (forall e, e ∈ ev ->
                    exists d, domain_of (url e) = Ok d
                              /\ m !! url e = Some (credibility_of d)) as Hcls.
  { intros e He. rewrite Forall_forall in Hall. specialize (Hall e He).
    destruct (domain_of (url e)) as [d|] eqn:Hd; [|done]. eauto. }
  split; [done|]. split; [|split; [|done]].
  - rewrite <- size_dom, Hdom.
    clear. induction ev as [|e ev IH]; cbn [map list_to_set length].
    + by rewrite size_empty.
    + rewrite size_union_alt, size_singleton.
      assert (size (list_to_set (map url ev) ∖ {[url e]} : gset string)
              <= size (list_to_set (map url ev) : gset string)) as Hsub
        by (apply subseteq_size; set_solver).
      lia.
  - intros u c Hu.
    assert (u ∈ dom m) as Hin by (apply elem_of_dom; eauto).
    rewrite Hdom, elem_of_list_to_set in Hin.
    apply list_elem_of_fmap in Hin as (e & -> & He).
    destruct (Hcls e He) as (d & _ & Hlook).
    assert (c = credibility_of d) as -> by congruence.
    apply credibility_of_label.
Qed.

Lemma assess_mapping_witness :
  dom Sample.credibility = list_to_set (map url Sample.evidence_found)
  /\ size Sample.credibility <= length Sample.evidence_found
  /\ (forall u c, Sample.credibility !! u = Some c -> c ∈ labels)
  /\ (forall e, e ∈ Sample.evidence_found ->
                exists d, domain_of (url e) = Ok d
                          /\ Sample.credibility !! url e
                             = Some (credibility_of d)).
Proof.
  apply (assess_mapping Sample.evidence_found Sample.credibility).
  reflexivity.
Defined.

Lemma append_nil_r_str (s : string) : s +:+ "" = s.
Proof.
  induction s as [|c s IH]; [done|]. by rewrite append_cons, IH.
Qed.

Lemma split_cons (c : ascii) (s : string) :
  Str.split "/" (String c s)
  = if Ascii.eqb c "/" then "" :: Str.split "/" s
    else match Str.split "/" s with
         | hd :: tl => String c hd :: tl
         | [] => [String c ""]
         end.
Proof. reflexivity. Qed.

(** Text without ['/'] stays in the first segment. *)
Lemma split_app_no_slash (s rest : string) :
  Str.contains "/" s = false ->
  Str.split "/" (s +:+ rest)
  = match Str.split "/" rest with
    | hd :: tl => (s +:+ hd) :: tl
    | [] => [s]
    end.
Proof.
  pose proof (split_nonempty "/" rest) as Hne.
  induction s as [|c s IH]; intros Hs.
  { change ("" +:+ rest) with rest. by destruct (Str.split "/" rest). }
  change (String.prefix "/" (String c s) || Str.contains "/" s = false) in Hs.
  apply orb_false_iff in Hs as [Hc Hs]. rewrite prefix_cons, prefix_nil in Hc.
  rewrite append_cons, split_cons, (IH Hs).
  destruct (Ascii.eqb c "/") eqn:Heq.
  { apply Ascii.eqb_eq in Heq. subst. by destruct (ascii_dec "/" "/"). }
  by destruct (Str.split "/" rest).
Qed.

Lemma split_no_slash (s : string) :
  Str.contains "/" s = false -> Str.split "/" s = [s].
Proof.
  intros Hs. rewrite <- (append_nil_r_str s) at 1.
  rewrite split_app_no_slash by done. cbn [Str.split].
  by rewrite append_nil_r_str.
Qed.

(** X6.  For a URL of the form [scheme://host] or [scheme://host/path],
    with no ['/'] in the scheme and in the host, the domain that [assess]
    classifies is the host. *)
Theorem domain_of_absolute_url (scheme host path : string) :
  Str.contains "/" scheme = false ->
  Str.contains "/" host = false ->
  domain_of (scheme +:+ "://" +:+ host) = Ok host
  /\ domain_of (scheme +:+ "://" +:+ host +:+ "/" +:+ path) = Ok host.
Proof.
  intros Hscheme Hhost.
  assert (forall rest, Str.split "/" ("://" +:+ rest)
                       = ":" :: "" :: Str.split "/" rest) as Hsep.
  { intros rest. change ("://" +:+ rest) with (String ":" (String "/" (String "/" rest))).
    by rewrite !split_cons. }
  assert (forall tail,
             match Str.split "/" (host +:+ tail) with
             | hd :: tl => Str.split "/" (scheme +:+ "://" +:+ host +:+ tail)
                           = (scheme +:+ ":") :: "" :: hd :: tl
             | [] => False
             end) as Hsplit.
  { intros tail. pose proof (split_nonempty "/" (host +:+ tail)) as Hne.
    rewrite (split_app_no_slash scheme) by done. rewrite Hsep.
    by destruct (Str.split "/" (host +:+ tail)). }
  unfold domain_of. rewrite !split_length_contains. split.
  - specialize (Hsplit ""). rewrite !append_nil_r_str in Hsplit.
    rewrite (split_no_slash host) in Hsplit by done.
    by rewrite Hsplit.
  - specialize (Hsplit ("/" +:+ path)).
    rewrite (split_app_no_slash host) in Hsplit by done.
    change ("/" +:+ path) with (String "/" path) in Hsplit.
    rewrite split_cons in Hsplit. cbn [Ascii.eqb Bool.eqb] in Hsplit.
    rewrite append_nil_r_str in Hsplit.
    change (String "/" path) with ("/" +:+ path) in Hsplit.
    by rewrite Hsplit.
Qed.

Lemma domain_of_absolute_url_witness :
  domain_of ("https" +:+ "://" +:+ "www.bbc.com") = Ok "www.bbc.com"
  /\ domain_of ("https" +:+ "://" +:+ "www.bbc.com" +:+ "/" +:+ "news/x")
     = Ok "www.bbc.com".
Proof.
  apply (domain_of_absolute_url "https" "www.bbc.com" "news/x"); reflexivity.
Defined.

(** ** Further properties of CoordinatorAgent.analyze *)

Lemma assess_loop_raises_IndexError ev (m : gmap string string) e :
  assess_loop ev m = Raise e -> e = IndexError.
Proof.
  revert m. induction ev as [|x ev IH]; intros m; cbn [assess_loop]; [done|].
  destruct (domain_of (url x)) as [d|e'] eqn:Hd; cbn [res_bind]; [by eauto|].
  intros [= <-]. unfold domain_of in Hd.
  destruct (Str.contains "/" (url x)); [|done].
  by destruct (Str.split "/" (url x) !! 2); inversion Hd.
Qed.

Lemma filter_bool_sublist {A} (f : A -> bool) (l : list A) :
  List.filter f l `sublist_of` l.
Proof.
  induction l as [|x l IH]; cbn [List.filter]; [constructor|].
  destruct (f x); by constructor.
Qed.

Lemma preferred_evidence_sublist credibility_map (ev : list Evidence) :
  preferred_evidence credibility_map ev `sublist_of` ev.
Proof.
  unfold preferred_evidence.
  destruct (existsb (is_high credibility_map) ev); [|apply sublist_take].
  etrans; [apply sublist_take|apply filter_bool_sublist].
Qed.

Lemma merged_evidence_url_nonempty (rs : list SearchResult) :
  Forall (fun e => url e <> "") (merged_evidence rs).
Proof.
  unfold merged_evidence. apply Forall_take, Forall_fmap, Forall_forall.
  intros r Hr. apply first_by_url_elem, filter_bool_In in Hr as [_ Hurl].
  unfold has_url in Hurl. cbn. destruct (r_href r) as [u|]; [|done].
  intros Hu. change (default "" (Some u)) with u in Hu. by subst.
Qed.

Section FurtherCoordinatorProperties.

Variable W : Type.
Variable generate_content : string -> M W string.
Variable datetime_now : W -> Z * W.
Variable json_loads : string -> option JSON.
Variable float_of_str : string -> option Q.
Variable repr : JSON -> string.
Variable MB : Type.
Variable memory_get : string -> MB -> option (list ClaimAnalysis) * MB.
Variable memory_store : string -> list ClaimAnalysis -> MB -> MB.
Variable search : string -> nat -> Res (list SearchResult).

Local Abbreviation analyze_fact' :=
  (analyze_fact W generate_content datetime_now float_of_str repr).
Local Abbreviation analyze_claims' :=
  (analyze_claims W generate_content datetime_now float_of_str repr).
Local Abbreviation analyze' :=
  (analyze W generate_content datetime_now json_loads float_of_str repr
           MB memory_get memory_store search).

Lemma py_float_raises (v : JSON) e :
  py_float float_of_str v = Raise e ->
  e ∈ [TypeError; ValueError; OverflowError].
Proof.
  unfold py_float. destruct v as [|b|q|s|items|fields];
    try (intros [= <-]; set_solver).
  - destruct (float_overflows q); [intros [= <-]; set_solver|done].
  - destruct (float_of_str s); [done|intros [= <-]; set_solver].
Qed.

Lemma analyze_fact_raises credibility_map ev fact w e w' :
  analyze_fact' credibility_map ev fact w = (Raise e, w') ->
  e ∈ [KeyError "claim"; TypeError; ValueError; OverflowError; ValidationError].
Proof.
  rewrite analyze_fact_cases. cbn zeta.
  destruct fact as [| | | | |fields];
    try (cbn [py_getitem]; intros [= <- _]; set_solver).
  cbn [py_getitem py_get]. unfold verifier_confidence. cbn [py_get].
  destruct (assoc "claim" fields) as [claim_v|];
    [|intros [= <- _]; set_solver].
  assert (exists reasoning,
             match assoc "reasoning" fields with
             | Some x => Ok x
             | None => Ok (JStr "")
             end = Ok reasoning) as [reasoning ->]
    by (destruct (assoc "reasoning" fields); eauto).
  assert (exists conf_v,
             match assoc "confidence" fields with
             | Some x => Ok x
             | None => Ok (JNum 0.8%Q)
             end = Ok conf_v) as [conf_v ->]
    by (destruct (assoc "confidence" fields); eauto).
  destruct (explain_total W generate_content repr claim_v reasoning
              (preferred_evidence credibility_map ev) w)
    as (v & w1 & -> & _).
  cbn [res_bind].
  destruct (py_float float_of_str conf_v) as [conf|e'] eqn:Hconf.
  - unfold ClaimAnalysis_new.
    destruct claim_v, v; try (intros [= <- _]; set_solver);
      destruct (Qle_bool 0 conf && Qle_bool conf 1);
      first [done | intros [= <- _]; set_solver].
  - intros [= <- _]. apply py_float_raises in Hconf.
    set_solver.
Qed.

Lemma analyze_claims_raises credibility_map ev facts acc w e w' :
  analyze_claims' credibility_map ev facts acc w = (Raise e, w') ->
  e ∈ [KeyError "claim"; TypeError; ValueError; OverflowError; ValidationError].
Proof.
  revert acc w. induction facts as [|fact facts IH]; intros acc w; [done|].
  rewrite analyze_claims_cons.
  destruct (analyze_fact' credibility_map ev fact w) as [[c|e'] w1] eqn:Hfact.
  - apply IH.
  - intros [= <- _]. by eapply analyze_fact_raises.
Qed.

(** X7.  An exception that escapes [analyze] was raised by one of the three
    searches, or is one of [IndexError] (from the credibility assessment),
    [KeyError] for the key "claim", [TypeError], [ValueError],
    [OverflowError] (from [float] on an int too large) and the validation
    error of [ClaimAnalysis]: an exception of the language model and a
    JSON parse error never escape. *)
Theorem analyze_exceptions order topic w mb e :
  (analyze' order topic (w, mb)).1 = Raise e ->
  (exists q, q ∈ queries topic /\ search q 3 = Raise e)
  \/ e ∈ coordinator_exceptions.
Proof.
  destruct (truthy (memory_get topic mb).1) eqn:Hhit.
  { by rewrite analyze_hit. }
  rewrite analyze_miss by done.
  destruct (gather search order topic) as [[|e0 ev]|e'] eqn:Hg; [done| |].
  - rewrite analyze_evidence_cases. intros Hrun. right.
    destruct (assess (e0 :: ev)) as [credibility_map|e1] eqn:Hassess.
    + destruct (check_total W generate_content json_loads topic (e0 :: ev) w)
        as (facts & w0 & Hcheck).
      rewrite Hcheck in Hrun.
      destruct (analyze_claims' credibility_map (e0 :: ev) (take 3 facts) [] w0)
        as [[[|c cs]|e2] w2] eqn:Hloop; try done.
      cbn in Hrun. injection Hrun as <-.
      apply analyze_claims_raises in Hloop. unfold coordinator_exceptions.
      set_solver.
    + cbn in Hrun. injection Hrun as <-.
      apply assess_loop_raises_IndexError in Hassess as ->.
      unfold coordinator_exceptions. set_solver.
  - cbn. intros [= <-]. left.
    change (queries topic)
      with [topic; topic +:+ " fact check"; topic +:+ " misinformation analysis"].
    apply gather_raise_inv in Hg as [Hq | [Hq | Hq]]; eexists; (split; [|exact Hq]);
      set_solver.
Qed.

(** X9.  On a miss, all the claims [analyze] returns carry one and the
    same evidence list: a subsequence of what [gather] returned, of at
    most three items, whose URLs are not empty and differ from one
    another. *)
Theorem analyze_claims_share_evidence order topic w mb claims st' :
  truthy (memory_get topic mb).1 = false ->
  analyze' order topic (w, mb) = (Ok claims, st') ->
  exists ev selected,
    gather search order topic = Ok ev
    /\ selected `sublist_of` ev
    /\ length selected <= 3
    /\ NoDup (map url selected)
    /\ Forall (fun e => url e <> "") selected
    /\ Forall (fun c => evidence c = selected) claims.
Proof.
  intros Hmiss. rewrite analyze_miss by done.
  destruct (gather search order topic) as [ev|] eqn:Hg; [|done].
  pose proof Hg as Hinv.
  apply gather_ok_inv in Hinv as (r1 & r2 & r3 & _ & _ & _ & Hev).
  assert (NoDup (map url ev)) as Hnodup
    by (subst ev; apply merged_evidence_NoDup).
  assert (Forall (fun e => url e <> "") ev) as Hurls
    by (subst ev; apply merged_evidence_url_nonempty).
  clear Hev.
  assert (forall cmap,
             preferred_evidence cmap ev `sublist_of` ev
             /\ length (preferred_evidence cmap ev) <= 3
             /\ NoDup (map url (preferred_evidence cmap ev))
             /\ Forall (fun e => url e <> "") (preferred_evidence cmap ev))
    as Hsel.
  { intros cmap. pose proof (preferred_evidence_sublist cmap ev) as Hsub.
    split; [done|]. split; [|split].
    - unfold preferred_evidence.
      destruct (existsb (is_high cmap) ev); rewrite length_take; lia.
    - eapply sublist_NoDup; [exact Hnodup|].
      by apply (fmap_sublist url).
    - rewrite Forall_forall in Hurls. apply Forall_forall. intros e He.
      apply Hurls. by eapply elem_of_sublist. }
  destruct ev as [|e0 ev].
  { intros [= <- _]. exists [], [].
    split; [done|]. split; [constructor|]. split; [cbn; lia|].
    split; [constructor|]. split; constructor. }
  rewrite analyze_evidence_cases.
  destruct (assess (e0 :: ev)) as [credibility_map|]; [|done].
  destruct (check W generate_content json_loads topic (e0 :: ev) w)
    as [[facts|] w0]; [|done].
  destruct (analyze_claims' credibility_map (e0 :: ev) (take 3 facts) [] w0)
    as [[cs|] w2] eqn:Hloop; [|done].
  intros Hrun. assert (claims = cs) as -> by (destruct cs; by inversion Hrun).
  destruct (Hsel credibility_map) as (Hsub & Hlen & Hnd & Hne).
  exists (e0 :: ev), (preferred_evidence credibility_map (e0 :: ev)).
  repeat (split; [done|]).
  apply analyze_claims_Forall2 in Hloop as [H2 _].
  clear -H2. induction H2 as [|f c fs cs' Hc _ IH]; constructor; [|done].
  apply Hc.
Qed.

End FurtherCoordinatorProperties.

(** ** The calls of the language model *)

Section LanguageModelCalls.

Variable W : Type.
Variable generate_content : string -> M W string.
Variable datetime_now : W -> Z * W.
Variable json_loads : string -> option JSON.
Variable float_of_str : string -> option Q.
Variable repr : JSON -> string.
Variable MB : Type.
Variable memory_get : string -> MB -> option (list ClaimAnalysis) * MB.
Variable memory_store : string -> list ClaimAnalysis -> MB -> MB.
Variable search : string -> nat -> Res (list SearchResult).

Local Abbreviation cgen := (counted_generate W generate_content).
Local Abbreviation cnow := (counted_now W datetime_now).

Lemma counted_generate_step prompt w n :
  exists r w', cgen prompt (w, n) = (r, (w', S n)).
Proof.
  unfold counted_generate. destruct (generate_content prompt w) as [r w'].
  by eexists _, _.
Qed.

Lemma counted_now_step w n : (cnow (w, n)).2.2 = n.
Proof. unfold counted_now. by destruct (datetime_now w). Qed.

Lemma check_counted topic ev w n :
  exists facts w',
    check (W * nat) cgen json_loads topic ev (w, n) = (Ok facts, (w', S n)).
Proof.
  destruct (counted_generate_step (fact_check_prompt topic ev) w n)
    as ([text|e] & w' & Hgen).
  - rewrite (check_answered _ _ _ _ _ _ _ _ Hgen).
    destruct (json_loads (clean text)) as [v|]; [|by eexists _, _].
    destruct (py_len v); by eexists _, _.
  - rewrite (check_not_answered _ _ _ _ _ _ _ _ Hgen). by eexists _, _.
Qed.

Lemma analyze_fact_counted credibility_map ev fact w n c w' n' :
  analyze_fact (W * nat) cgen cnow float_of_str repr
               credibility_map ev fact (w, n) = (Ok c, (w', n')) ->
  n' = S n.
Proof.
  rewrite analyze_fact_cases. cbn zeta.
  destruct (py_getitem fact "claim") as [claim_v|]; [|done].
  destruct (py_get fact "reasoning" (JStr "")) as [reasoning|]; [|done].
  rewrite explain_cases.
  destruct (counted_generate_step
              (explain_prompt repr claim_v reasoning
                 (preferred_evidence credibility_map ev)) w n)
    as (r & w1 & ->).
  assert (forall (v : JSON),
             match verifier_confidence float_of_str fact with
             | Ok conf =>
                 (ClaimAnalysis_new claim_v MISINFORMATION conf v
                    (preferred_evidence credibility_map ev)
                    (cnow (w1, S n)).1 false, (cnow (w1, S n)).2)
             | Raise e0 => (Raise e0, (w1, S n))
             end = (Ok c, (w', n')) -> n' = S n) as Hrest.
  { intros v. destruct (verifier_confidence float_of_str fact); [|done].
    pose proof (counted_now_step w1 (S n)) as Hn.
    destruct (cnow (w1, S n)) as [t [w2 n2]]. cbn [fst snd] in *.
    intros [= _ _ <-]. done. }
  destruct r; apply Hrest.
Qed.

Lemma analyze_claims_counted credibility_map ev facts w n cs w' n' :
  analyze_claims (W * nat) cgen cnow float_of_str repr
                 credibility_map ev facts [] (w, n) = (Ok cs, (w', n')) ->
  n' = n + length cs.
Proof.
  revert w n cs w' n'. induction facts as [|fact facts IH]; intros w n cs w' n'.
  { intros [= <- _ <-]. cbn. lia. }
  rewrite analyze_claims_cons.
  destruct (analyze_fact _ _ _ _ _ _ _ fact (w, n)) as [[c|] [w1 n1]] eqn:Hfact;
    [|done].
  apply analyze_fact_counted in Hfact as ->.
  rewrite analyze_claims_acc.
  destruct (analyze_claims _ _ _ _ _ _ _ facts [] (w1, S n))
    as [[cs'|] [w2 n2]] eqn:Hrest; [|done].
  apply IH in Hrest as ->. intros [= <- _ <-]. cbn [app length]. lia.
Qed.

(** X8.  How often [analyze] calls the language model when it returns:
    never on a hit and never when no evidence was found; otherwise once
    for the fact check and once for each claim returned. *)
Theorem analyze_language_model_calls order topic w n mb claims w' n' mb' :
  analyze (W * nat) cgen cnow json_loads float_of_str repr
          MB memory_get memory_store search order topic ((w, n), mb)
  = (Ok claims, ((w', n'), mb')) ->
  n' = if truthy (memory_get topic mb).1 then n
       else match gather search order topic with
            | Ok (_ :: _) => n + 1 + length claims
            | _ => n
            end.
Proof.
  destruct (truthy (memory_get topic mb).1) eqn:Hhit.
  { rewrite analyze_hit by done. by intros [= _ _ <- _]. }
  rewrite analyze_miss by done.
  destruct (gather search order topic) as [[|e0 ev]|]; [|clear Hhit|done].
  { by intros [= _ _ <- _]. }
  rewrite analyze_evidence_cases.
  destruct (assess (e0 :: ev)) as [credibility_map|]; [|done].
  destruct (check_counted topic (e0 :: ev) w n) as (facts & w0 & ->).
  destruct (analyze_claims _ _ _ _ _ credibility_map (e0 :: ev) (take 3 facts) [] (w0, S n))
    as [[cs|] [w2 n2]] eqn:Hloop; [|done].
  apply analyze_claims_counted in Hloop as ->.
  intros Hrun.
  assert (claims = cs /\ n' = S n + length cs) as [-> ->]
    by (destruct cs; by inversion Hrun).
  lia.
Qed.

End LanguageModelCalls.

(** ** The endpoint [POST /analyze] *)

Lemma lstrip_cons (c : ascii) (s : string) :
  Str.lstrip (String c s) = if Str.isspace c then Str.lstrip s else String c s.
Proof. reflexivity. Qed.

Lemma lstrip_head (s : string) :
  Str.lstrip s = ""
  \/ exists c t, Str.lstrip s = String c t /\ Str.isspace c = false.
Proof.
  induction s as [|c s IH]; [by left|]. rewrite lstrip_cons.
  destruct (Str.isspace c) eqn:Hc; [done|]. right. by exists c, s.
Qed.

Lemma lstrip_empty_iff (s : string) :
  Str.lstrip s = "" <-> all_space s = true.
Proof.
  induction s as [|c s IH]; [done|]. rewrite lstrip_cons. cbn [all_space].
  destruct (Str.isspace c); [done|]. split; done.
Qed.

Lemma rstrip_head (c : ascii) (t : string) :
  Str.isspace c = false -> exists t', Str.rstrip (String c t) = String c t'.
Proof.
  intros Hc. rewrite rstrip_cons, Hc. destruct (Str.rstrip t); eauto.
Qed.

Lemma rstrip_idem (s : string) : Str.rstrip (Str.rstrip s) = Str.rstrip s.
Proof.
  induction s as [|c s IH]; [done|]. rewrite rstrip_cons.
  destruct (Str.rstrip s) as [|a r] eqn:Hr.
  - destruct (Str.isspace c) eqn:Hc; [done|].
    by rewrite rstrip_cons, Hc.
  - by rewrite rstrip_cons, IH.
Qed.

Lemma strip_idem (s : string) : Str.strip (Str.strip s) = Str.strip s.
Proof.
  unfold Str.strip. destruct (lstrip_head s) as [->|(c & t & -> & Hc)]; [done|].
  destruct (rstrip_head c t Hc) as [t' Ht']. rewrite Ht'.
  rewrite lstrip_cons, Hc, <- Ht'. apply rstrip_idem.
Qed.

Lemma strip_empty_iff (s : string) : Str.strip s = "" <-> all_space s = true.
Proof.
  rewrite <- lstrip_empty_iff. unfold Str.strip.
  destruct (lstrip_head s) as [->|(c & t & -> & Hc)]; [done|].
  destruct (rstrip_head c t Hc) as [t' ->]. done.
Qed.

Lemma lstrip_length (s : string) : String.length (Str.lstrip s) <= String.length s.
Proof.
  induction s as [|c s IH]; [done|]. rewrite lstrip_cons.
  destruct (Str.isspace c); cbn [String.length]; lia.
Qed.

Lemma rstrip_length (s : string) : String.length (Str.rstrip s) <= String.length s.
Proof.
  induction s as [|c s IH]; [done|]. rewrite rstrip_cons.
  destruct (Str.rstrip s); [destruct (Str.isspace c)|]; cbn [String.length] in *; lia.
Qed.

Lemma strip_length (s : string) : String.length (Str.strip s) <= String.length s.
Proof.
  unfold Str.strip. etrans; [apply rstrip_length|apply lstrip_length].
Qed.

Section ApiProperties.

Variable W : Type.
Variable generate_content : string -> M W string.
Variable datetime_now : W -> Z * W.
Variable json_loads : string -> option JSON.
Variable float_of_str : string -> option Q.
Variable repr : JSON -> string.
Variable MB : Type.
Variable memory_get : string -> MB -> option (list ClaimAnalysis) * MB.
Variable memory_store : string -> list ClaimAnalysis -> MB -> MB.
Variable search : string -> nat -> Res (list SearchResult).
Variable time_time : W -> Q * W.
Variable str_of_exn : exn -> string.

Local Abbreviation analyze'' :=
  (analyze W generate_content datetime_now json_loads float_of_str repr
           MB memory_get memory_store search).
Local Abbreviation analyze_topic' :=
  (analyze_topic W generate_content datetime_now json_loads float_of_str repr
                 MB memory_get memory_store search time_time str_of_exn).

(** X10.  The endpoint serves a topic and the same topic without its
    leading and trailing whitespace alike, in the response and in every
    effect; the topic the coordinator works on is never longer than the
    one sent. *)
Theorem analyze_topic_strips order request_topic st :
  analyze_topic' order request_topic st
  = analyze_topic' order (Str.strip request_topic) st
  /\ String.length (Str.strip request_topic) <= String.length request_topic.
Proof.
  split; [|apply strip_length].
  unfold analyze_topic. by rewrite strip_idem.
Qed.

(** X11.  For a topic that passes the validation of the request, the
    topic handed to the coordinator has at most 200 characters; it is
    empty exactly when the topic sent is made of whitespace only, and
    the request is then served like a request for the empty topic, which
    the validation does not accept. *)
Theorem analyze_topic_of_whitespace order request_topic st :
  AnalysisRequest_valid request_topic = true ->
  String.length (Str.strip request_topic) <= 200
  /\ (Str.strip request_topic = "" <-> all_space request_topic = true)
  /\ (all_space request_topic = true ->
      analyze_topic' order request_topic st = analyze_topic' order "" st)
  /\ AnalysisRequest_valid "" = false.
Proof.
  unfold AnalysisRequest_valid. intros Hvalid.
  apply andb_true_iff in Hvalid as [_ Hmax]. apply Nat.leb_le in Hmax.
  split; [pose proof (strip_length request_topic); lia|].
  split; [apply strip_empty_iff|]. split; [|done].
  intros Hspace. apply strip_empty_iff in Hspace.
  unfold analyze_topic. by rewrite Hspace.
Qed.

(** X12.  What a request comes to.  Either the coordinator returned claims:
    the response carries them with the stripped topic and the flag derived
    from their [cached] fields, and the calls on [metrics] are one request,
    the duration, the number of claims and, when the flag is set, one
    cache hit.  Or the coordinator raised: the handler raises the HTTP
    error 500 with the text of the exception, the calls on [metrics] are
    one request and one error, and the memory bank was looked up and not
    stored to. *)
Theorem analyze_topic_outcome order request_topic w mb metrics res w' mb' metrics' :
  analyze_topic' order request_topic (w, mb, metrics)
  = (res, (w', mb', metrics')) ->
  let run := analyze'' order (Str.strip request_topic) ((time_time w).2, mb) in
  (exists body,
      res = Response body
      /\ run.1 = Ok (response_claims body)
      /\ mb' = run.2.2
      /\ response_topic body = Str.strip request_topic
      /\ response_cached_flag body = response_cached (response_claims body)
      /\ metrics'
         = metrics
           ++ [ counter_inc "analysis_requests_total" None;
                histogram_observe "analysis_duration_seconds"
                                  (processing_time body);
                counter_inc "claims_analyzed_total"
                            (Some (length (response_claims body))) ]
           ++ (if response_cached_flag body
               then [counter_inc "cache_hits_total" None] else []))
  \/ (exists e,
        res = HTTPException 500 (str_of_exn e)
        /\ run.1 = Raise e
        /\ mb' = (memory_get (Str.strip request_topic) mb).2
        /\ metrics'
           = metrics ++ [ counter_inc "analysis_requests_total" None;
                          counter_inc "analysis_errors_total" None ]).
Proof.
  unfold analyze_topic. cbn zeta.
  destruct (time_time w) as [start_time w0]. cbn [snd].
  destruct (analyze'' order (Str.strip request_topic) (w0, mb))
    as [[claims|e] [w1 mb1]] eqn:Hrun.
  - destruct (time_time w1) as [end_time w2].
    destruct (datetime_now w2) as [now w3].
    intros [= <- <- <- <-]. left. eexists. split; [reflexivity|].
    cbn [response_claims response_topic response_cached_flag processing_time
         fst snd].
    repeat (split; [reflexivity|]).
    rewrite <- !app_assoc. cbn [app].
    by destruct (response_cached claims).
  - intros [= <- <- <- <-]. right. exists e.
    cbn [fst snd]. split; [done|]. split; [done|]. split.
    + apply analyze_memory_effect in Hrun
        as [->|(claims & Hr & _)]; [done|discriminate].
    + by rewrite <- app_assoc.
Qed.

End ApiProperties.

(** ** The further properties on the sample requests *)

Lemma assess_returns_iff_no_single_slash_witness :
  is_ok (assess Sample.evidence_found) = true.
Proof.
  apply (proj2 (assess_returns_iff_no_single_slash Sample.evidence_found)).
  repeat constructor; cbn; lia.
Defined.

Lemma analyze_exceptions_witness :
  ((exists q, q ∈ queries Sample.topic
              /\ Sample.search q 3 = Raise (KeyError "claim"))
   \/ KeyError "claim" ∈ coordinator_exceptions)
  /\ ((exists q, q ∈ queries Sample.topic
                 /\ Sample.search q 3 = Raise OverflowError)
      \/ OverflowError ∈ coordinator_exceptions).
Proof.
  split.
  - apply (analyze_exceptions Scripted.World Scripted.generate_content
             Scripted.datetime_now Sample.json_loads Scripted.float_of_str
             Scripted.repr MemoryBank.t MemoryBank.get MemoryBank.store
             Sample.search [2; 0; 1] Sample.topic
             (Sample.world [Ok (Sample.fenced Sample.text_no_claim)])
             MemoryBank.empty).
    reflexivity.
  - apply (analyze_exceptions Scripted.World Scripted.generate_content
             Scripted.datetime_now Scenario.json_loads Scripted.float_of_str
             Scripted.repr MemoryBank.t MemoryBank.get MemoryBank.store
             Sample.search [2; 0; 1] Sample.topic
             (Sample.world [Ok (Sample.fenced Scenario.text_huge);
                            Ok "Tracked."])
             MemoryBank.empty).
    vm_compute. reflexivity.
Defined.

Lemma analyze_language_model_calls_witness :
  3 = if truthy (MemoryBank.get Sample.topic MemoryBank.empty).1 then 0
      else match gather Sample.search [2; 0; 1] Sample.topic with
           | Ok (_ :: _) =>
               0 + 1 + length [ Sample.claim_staged "Tracked." 1700000000;
                                Sample.claim_flag "Touched." 1700000001 ]
           | _ => 0
           end.
Proof.
  apply (analyze_language_model_calls Scripted.World Scripted.generate_content
           Scripted.datetime_now Sample.json_loads Scripted.float_of_str
           Scripted.repr MemoryBank.t MemoryBank.get MemoryBank.store
           Sample.search [2; 0; 1] Sample.topic
           (Sample.world [ Ok (Sample.fenced Sample.text_two_facts);
                           Ok "Tracked."; Ok "Touched." ])
           0 MemoryBank.empty
           [ Sample.claim_staged "Tracked." 1700000000;
             Sample.claim_flag "Touched." 1700000001 ]
           (Scripted.mkWorld [] 1700000002) 3
           (MemoryBank.store Sample.topic
              [ Sample.claim_staged "Tracked." 1700000000;
                Sample.claim_flag "Touched." 1700000001 ]
              (MemoryBank.get Sample.topic MemoryBank.empty).2)).
  reflexivity.
Defined.

Lemma analyze_claims_share_evidence_witness :
  exists ev selected,
    gather Sample.search [2; 0; 1] Sample.topic = Ok ev
    /\ selected `sublist_of` ev
    /\ length selected <= 3
    /\ NoDup (map url selected)
    /\ Forall (fun e => url e <> "") selected
    /\ Forall (fun c => evidence c = selected)
              [ Sample.claim_staged "Tracked." 1700000000;
                Sample.claim_flag "Touched." 1700000001 ].
Proof.
  refine (analyze_claims_share_evidence Scripted.World Scripted.generate_content
            Scripted.datetime_now Sample.json_loads Scripted.float_of_str
            Scripted.repr MemoryBank.t MemoryBank.get MemoryBank.store
            Sample.search [2; 0; 1] Sample.topic
            (Sample.world [ Ok (Sample.fenced Sample.text_two_facts);
                            Ok "Tracked."; Ok "Touched." ])
            MemoryBank.empty _
            (Scripted.mkWorld [] 1700000002,
             MemoryBank.store Sample.topic
               [ Sample.claim_staged "Tracked." 1700000000;
                 Sample.claim_flag "Touched." 1700000001 ]
               (MemoryBank.get Sample.topic MemoryBank.empty).2)
            _ _); reflexivity.
Defined.

Lemma analyze_topic_of_whitespace_witness :
  String.length (Str.strip "   ") <= 200
  /\ (Str.strip "   " = "" <-> all_space "   " = true)
  /\ (all_space "   " = true ->
      Scenario.analyze_topic [2; 0; 1] "   "
        (Sample.world [], MemoryBank.empty, [])
      = Scenario.analyze_topic [2; 0; 1] ""
          (Sample.world [], MemoryBank.empty, []))
  /\ AnalysisRequest_valid "" = false.
Proof.
  apply (analyze_topic_of_whitespace Scripted.World Scripted.generate_content
           Scripted.datetime_now Sample.json_loads Scripted.float_of_str
           Scripted.repr MemoryBank.t MemoryBank.get MemoryBank.store
           Sample.search Scenario.time_time Scenario.str_of_exn
           [2; 0; 1] "   " (Sample.world [], MemoryBank.empty, [])).
  reflexivity.
Defined.

Lemma analyze_topic_outcome_witness :
  exists e,
    HTTPException 500 "'claim'" = HTTPException 500 (Scenario.str_of_exn e)
    /\ (Sample.analyze Sample.search [2; 0; 1] (Str.strip "  moon landing ")
          ((Scenario.time_time
              (Sample.world [Ok (Sample.fenced Sample.text_no_claim)])).2,
           MemoryBank.empty)).1 = Raise e
    /\ MemoryBank.mk ∅ 0 1
       = (MemoryBank.get (Str.strip "  moon landing ") MemoryBank.empty).2
    /\ [ counter_inc "analysis_requests_total" None;
         counter_inc "analysis_errors_total" None ]
       = [] ++ [ counter_inc "analysis_requests_total" None;
                 counter_inc "analysis_errors_total" None ].
Proof.
  destruct (analyze_topic_outcome Scripted.World Scripted.generate_content
              Scripted.datetime_now Sample.json_loads Scripted.float_of_str
              Scripted.repr MemoryBank.t MemoryBank.get MemoryBank.store
              Sample.search Scenario.time_time Scenario.str_of_exn
              [2; 0; 1] "  moon landing "
              (Sample.world [Ok (Sample.fenced Sample.text_no_claim)])
              MemoryBank.empty []
              (HTTPException 500 "'claim'")
              (Scripted.mkWorld [] 1700000001) (MemoryBank.mk ∅ 0 1)
              [ counter_inc "analysis_requests_total" None;
                counter_inc "analysis_errors_total" None ]
              eq_refl)
    as [(body & Hres & _)|Hfail]; [discriminate|exact Hfail].
Defined.

Example request_served :
  (Scenario.analyze_topic [2; 0; 1] "  moon landing "
     (Sample.world [ Ok (Sample.fenced Sample.text_two_facts);
                     Ok "Tracked."; Ok "Touched." ],
      MemoryBank.empty, [])).1
  = Response
      (mkAnalysisResponse
         [ Sample.claim_staged "Tracked." 1700000001;
           Sample.claim_flag "Touched." 1700000002 ]
         "moon landing" 1700000004 3 false).
Proof. vm_compute. reflexivity. Qed.

Example calls_counted :
  (Scenario.counted_analyze [2; 0; 1] Sample.topic
     ((Sample.world [ Ok (Sample.fenced Sample.text_four_facts);
                      Ok "First."; Ok "Second."; Ok "Third."; Ok "Fourth." ], 0),
      MemoryBank.empty)).2.1.2
  = 4.
Proof. vm_compute. reflexivity. Qed.
